(** * The Ray operator control loop (python/ray/ray_operator/operator.py)

    A shallow embedding of the operator's per-cluster supervisor
    ([RayCluster]), of the registry [ray_clusters], of the status queue
    [cluster_status_q] with its worker thread, and of the create / update /
    delete handlers, followed by the properties of the design document
    that can be settled on them.

    Python objects with identity live in a heap and are named by their
    address.  A supervised [mp.Process] is a forked copy of the operator's
    memory; the filesystem, the process table and the [mp.Event] flags are
    shared by all processes.  Every process keeps a journal of the effects
    it has performed, in order. *)

From stdpp Require Import base gmap sets list strings.
From Stdlib Require Import ZArith.

Local Open Scope string_scope.

(** ** Python values and exceptions *)

(** The values that occur in resource bodies and configuration documents. *)
#[local] Set Warnings "-register-all".
Inductive PyVal : Type :=
| VNone
| VInt (z : Z)
| VStr (s : string)
| VDict (kvs : list (string * PyVal)).

Inductive PyExc : Type :=
| KeyError (k : string)
| TypeError
| AttributeError
| OSError
| ReferenceError
| ExternalError (what : string).

(** What a call of a collaborator outside this file does. *)
Inductive Outcome (A : Type) : Type :=
| Returns (a : A)
| Raises (e : PyExc).
Arguments Returns {A} a.
Arguments Raises {A} e.

(** What a piece of operator code does: it returns, raises, or leaves its
    thread or process waiting in a blocking call. *)
Inductive PyResult (A : Type) : Type :=
| Ok (a : A)
| Exc (e : PyExc)
| Blocked.
Arguments Ok {A} a.
Arguments Exc {A} e.
Arguments Blocked {A}.

Fixpoint assoc (k : string) (kvs : list (string * PyVal)) : option PyVal :=
  match kvs with
  | [] => None
  | (k', v) :: rest => if String.eqb k k' then Some v else assoc k rest
  end.

(** [d[k]] *)
Definition py_getitem (d : PyVal) (k : string) : Outcome PyVal :=
  match d with
  | VDict kvs =>
      match assoc k kvs with
      | Some v => Returns v
      | None => Raises (KeyError k)
      end
  | _ => Raises TypeError
  end.

(** [d.get(k, default)] *)
Definition py_get (d : PyVal) (k : string) (default : PyVal) : Outcome PyVal :=
  match d with
  | VDict kvs =>
      match assoc k kvs with
      | Some v => Returns v
      | None => Returns default
      end
  | _ => Raises AttributeError
  end.

(** [a > b] *)
Definition py_gt (a b : PyVal) : Outcome bool :=
  match a, b with
  | VInt x, VInt y => Returns (Z.ltb y x)
  | VStr x, VStr y => Returns (String.ltb y x)
  | _, _ => Raises TypeError
  end.

(** ** Memory of one process, and the world the processes share *)

Definition Ident : Type := string * string.
Definition StatusItem : Type := string * string * string.

Record RayCluster : Type := {
  rc_config : PyVal;
  rc_name : string;
  rc_namespace : string;
  rc_config_path : string;
  rc_subprocess : option nat;
  rc_subprocess_name : string;
  rc_monitor_stop_event : nat;
  rc_handler : nat
}.

Inductive ThreadState : Type :=
| ThreadWaiting
| ThreadDone (e : option PyExc).

Inductive QueueRef : Type := Cluster_status_q.

Record Thread : Type := {
  t_args : list QueueRef;
  t_state : ThreadState
}.

Inductive Effect : Type :=
| EMakedirs (d : string)
| EAddHandler (h : nat)
| ERemoveHandler (h : nat)
| EPut (item : option StatusItem)
| EEventSet (ev : nat)
| EEventClear (ev : nat)
| EProcStart (pid : nat) (name : string) (restart_ray : bool)
| EJoin (pid : nat)
| EWrite (path : string) (cfg : PyVal)
| ERemove (path : string)
| EProvision (path : string) (seen : option PyVal) (no_restart : bool)
| EMonitor (redis_address : string) (path : string)
| ESetStatus (item : StatusItem).

Record Mem : Type := {
  ray_clusters : gmap (string * string) nat;
  heap : list RayCluster;
  cluster_status_q : list (option StatusItem);
  root_logger : list nat;
  status_handler : option Thread;
  journal : list Effect
}.

Inductive Stage : Type :=
| Started
| Monitoring
| Exited (e : option PyExc).

Record Proc : Type := {
  p_name : string;
  p_self : nat;
  p_restart_ray : bool;
  p_mem : Mem;
  p_stage : Stage
}.

Record World : Type := {
  files : gmap string PyVal;
  dirs : gset string;
  procs : list Proc;
  events : list bool;
  status_writes : list StatusItem
}.

(** A process at work: its own memory and the shared world. *)
Record State : Type := {
  mem : Mem;
  world : World
}.

Definition upd_mem (f : Mem -> Mem) (s : State) : State :=
  {| mem := f (mem s); world := world s |}.
Definition upd_world (f : World -> World) (s : State) : State :=
  {| mem := mem s; world := f (world s) |}.

Definition set_ray_clusters (r : gmap (string * string) nat) (m : Mem) : Mem :=
  {| ray_clusters := r; heap := heap m; cluster_status_q := cluster_status_q m;
     root_logger := root_logger m; status_handler := status_handler m;
     journal := journal m |}.
Definition set_heap (h : list RayCluster) (m : Mem) : Mem :=
  {| ray_clusters := ray_clusters m; heap := h; cluster_status_q := cluster_status_q m;
     root_logger := root_logger m; status_handler := status_handler m;
     journal := journal m |}.
Definition set_cluster_status_q (q : list (option StatusItem)) (m : Mem) : Mem :=
  {| ray_clusters := ray_clusters m; heap := heap m; cluster_status_q := q;
     root_logger := root_logger m; status_handler := status_handler m;
     journal := journal m |}.
Definition set_root_logger (l : list nat) (m : Mem) : Mem :=
  {| ray_clusters := ray_clusters m; heap := heap m; cluster_status_q := cluster_status_q m;
     root_logger := l; status_handler := status_handler m; journal := journal m |}.
Definition set_status_handler (t : option Thread) (m : Mem) : Mem :=
  {| ray_clusters := ray_clusters m; heap := heap m; cluster_status_q := cluster_status_q m;
     root_logger := root_logger m; status_handler := t; journal := journal m |}.
Definition set_journal (j : list Effect) (m : Mem) : Mem :=
  {| ray_clusters := ray_clusters m; heap := heap m; cluster_status_q := cluster_status_q m;
     root_logger := root_logger m; status_handler := status_handler m; journal := j |}.

Definition set_files (f : gmap string PyVal) (w : World) : World :=
  {| files := f; dirs := dirs w; procs := procs w; events := events w;
     status_writes := status_writes w |}.
Definition set_dirs (d : gset string) (w : World) : World :=
  {| files := files w; dirs := d; procs := procs w; events := events w;
     status_writes := status_writes w |}.
Definition set_procs (p : list Proc) (w : World) : World :=
  {| files := files w; dirs := dirs w; procs := p; events := events w;
     status_writes := status_writes w |}.
Definition set_events (e : list bool) (w : World) : World :=
  {| files := files w; dirs := dirs w; procs := procs w; events := e;
     status_writes := status_writes w |}.
Definition set_status_writes (l : list StatusItem) (w : World) : World :=
  {| files := files w; dirs := dirs w; procs := procs w; events := events w;
     status_writes := l |}.

Definition set_rc_config (c : PyVal) (rc : RayCluster) : RayCluster :=
  {| rc_config := c; rc_name := rc_name rc; rc_namespace := rc_namespace rc;
     rc_config_path := rc_config_path rc; rc_subprocess := rc_subprocess rc;
     rc_subprocess_name := rc_subprocess_name rc;
     rc_monitor_stop_event := rc_monitor_stop_event rc; rc_handler := rc_handler rc |}.
Definition set_rc_subprocess (p : option nat) (rc : RayCluster) : RayCluster :=
  {| rc_config := rc_config rc; rc_name := rc_name rc; rc_namespace := rc_namespace rc;
     rc_config_path := rc_config_path rc; rc_subprocess := p;
     rc_subprocess_name := rc_subprocess_name rc;
     rc_monitor_stop_event := rc_monitor_stop_event rc; rc_handler := rc_handler rc |}.

Definition set_p_stage (st : Stage) (p : Proc) : Proc :=
  {| p_name := p_name p; p_self := p_self p; p_restart_ray := p_restart_ray p;
     p_mem := p_mem p; p_stage := st |}.
Definition set_p_mem (m : Mem) (p : Proc) : Proc :=
  {| p_name := p_name p; p_self := p_self p; p_restart_ray := p_restart_ray p;
     p_mem := m; p_stage := p_stage p |}.

(** ** The monad of operator code *)

Definition M (A : Type) : Type := State -> PyResult A * State.

Definition ret {A} (a : A) : M A := fun s => (Ok a, s).

Definition bind {A B} (m : M A) (k : A -> M B) : M B :=
  fun s =>
    match m s with
    | (Ok a, s') => k a s'
    | (Exc e, s') => (Exc e, s')
    | (Blocked, s') => (Blocked, s')
    end.

Definition raise {A} (e : PyExc) : M A := fun s => (Exc e, s).

(** [try: m except Exception as e: h e] *)
Definition try_except {A} (m : M A) (h : PyExc -> M A) : M A :=
  fun s =>
    match m s with
    | (Exc e, s') => h e s'
    | r => r
    end.

Definition call {A} (o : Outcome A) : M A :=
  match o with
  | Returns a => ret a
  | Raises e => raise e
  end.

Definition gets {A} (f : State -> A) : M A := fun s => (Ok (f s), s).
Definition modify (f : State -> State) : M unit := fun s => (Ok tt, f s).

Declare Scope py_scope.
Delimit Scope py_scope with py.
Notation "'let*' x ':=' m 'in' k" := (bind m (fun x => k))
  (at level 10, x name, m at level 99, k at level 200) : py_scope.
Notation "m ';;' k" := (bind m (fun _ => k))
  (at level 100, k at level 200, right associativity) : py_scope.
Local Open Scope py_scope.

(** The effect [e] is appended to the journal of the process at work. *)
Definition emit (e : Effect) : M unit :=
  modify (upd_mem (fun m => set_journal (journal m ++ [e]) m)).

(** A string is expected where the collaborator builds a path or joins
    names; anything else is a [TypeError]. *)
Definition as_str (v : PyVal) : M string :=
  match v with
  | VStr s => ret s
  | _ => raise TypeError
  end.

(** Heap access through a reference. *)
Definition deref (self : nat) : M RayCluster :=
  fun s =>
    match heap (mem s) !! self with
    | Some rc => (Ok rc, s)
    | None => (Exc ReferenceError, s)
    end.

Definition update_obj (self : nat) (f : RayCluster -> RayCluster) : M unit :=
  modify (upd_mem (fun m => set_heap (alter f self (heap m)) m)).

(** ** Collaborators outside this file *)

(** The helpers of [ray.ray_operator.operator_utils] and the provisioning
    commands of [ray.autoscaler._private.commands].  The two commands read
    the configuration file at the path they are given, so they receive what
    the file holds at the time of the call. *)
Class Collaborators : Type := {
  cr_to_config : PyVal -> Outcome PyVal;
  check_redis_password_not_specified : PyVal -> string * string -> Outcome unit;
  namespace_dir : string -> string;
  config_path : string -> string -> string;
  infer_head_port : PyVal -> Outcome string;
  set_status : string -> string -> string -> Outcome unit;
  AUTOSCALER_RETRIES_FIELD : string;
  create_or_update_cluster : string -> option PyVal -> bool -> Outcome PyVal;
  get_head_node_ip : string -> option PyVal -> Outcome string
}.

(** Modelled from the spec: the three phase constants of [operator_utils],
    which the design document lists as [Updating], [Running] and
    [AutoscalingException]. *)
Definition STATUS_UPDATING : string := "Updating".
Definition STATUS_RUNNING : string := "Running".
Definition STATUS_AUTOSCALING_EXCEPTION : string := "AutoscalingException".

(** [services.address(ip, port)] *)
Definition address (ip port : string) : string := ip ++ ":" ++ port.

(** ** Primitives of the standard library used by the operator *)

Definition block {A} : M A := fun s => (Blocked, s).

(** [os.makedirs(d, exist_ok=True)] *)
Definition makedirs (d : string) : M unit :=
  modify (upd_world (fun w => set_dirs ({[d]} ∪ dirs w) w)) ;;
  emit (EMakedirs d).

(** [mp.Event()], [.set()], [.clear()], [.is_set()] *)
Definition Event_new : M nat :=
  fun s => (Ok (length (events (world s))),
            upd_world (fun w => set_events (events w ++ [false]) w) s).
Definition Event_set (ev : nat) : M unit :=
  modify (upd_world (fun w => set_events (<[ev := true]> (events w)) w)) ;;
  emit (EEventSet ev).
Definition Event_clear (ev : nat) : M unit :=
  modify (upd_world (fun w => set_events (<[ev := false]> (events w)) w)) ;;
  emit (EEventClear ev).
Definition Event_is_set (ev : nat) : M bool :=
  gets (fun s => default false (events (world s) !! ev)).

(** [cluster_status_q.put(item)] *)
Definition q_put (item : option StatusItem) : M unit :=
  modify (upd_mem (fun m => set_cluster_status_q (cluster_status_q m ++ [item]) m)) ;;
  emit (EPut item).

(** [os.remove(path)] *)
Definition os_remove (path : string) : M unit :=
  fun s =>
    match files (world s) !! path with
    | Some _ =>
        (modify (upd_world (fun w => set_files (delete path (files w)) w)) ;;
         emit (ERemove path)) s
    | None => (Exc OSError, s)
    end.

Fixpoint remove_first (h : nat) (l : list nat) : list nat :=
  match l with
  | [] => []
  | x :: rest => if Nat.eqb x h then rest else x :: remove_first h rest
  end.

Definition stage_alive (st : Stage) : bool :=
  match st with
  | Exited _ => false
  | _ => true
  end.

(** [process.is_alive()] *)
Definition is_alive (pid : nat) : M bool :=
  gets (fun s =>
          match procs (world s) !! pid with
          | Some p => stage_alive (p_stage p)
          | None => false
          end).

(** Modelled from the spec: [Monitor.run()] of
    [ray.autoscaler._private.monitor], which blocks until the stop event it
    was given is set or until it fails, and raises on failure.  [fault] is
    the failure, if any, that the loop meets when the process next runs. *)
Definition Monitor_run (stop_event : nat) (fault : option PyExc) : M unit :=
  match fault with
  | Some e => raise e
  | None =>
      let* stop := Event_is_set stop_event in
      if stop then ret tt else block
  end.

(** ** The supervisor: class RayCluster *)

Section Operator.
Context `{C : Collaborators}.

(** [setup_logging], as [__init__] calls it, once for each object: the
    [StreamHandler] it builds is new, and is known by the address of the
    object it is built for. *)
Definition setup_logging (self : nat) : M unit :=
  let* rc := deref self in
  modify (upd_mem (fun m => set_root_logger (root_logger m ++ [rc_handler rc]) m)) ;;
  emit (EAddHandler (rc_handler rc)).

Definition clean_up_logging (self : nat) : M unit :=
  let* rc := deref self in
  modify (upd_mem (fun m => set_root_logger (remove_first (rc_handler rc) (root_logger m)) m)) ;;
  emit (ERemoveHandler (rc_handler rc)).

(** [RayCluster(config)]: the new object's address is returned. *)
Definition RayCluster_init (config : PyVal) : M nat :=
  let* name := call (py_getitem config "cluster_name") in
  let* provider := call (py_getitem config "provider") in
  let* namespace := call (py_getitem provider "namespace") in
  let* ns := as_str namespace in
  makedirs (namespace_dir ns) ;;
  let* nm := as_str name in
  let* ev := Event_new in
  let* self := gets (fun s => length (heap (mem s))) in
  modify (upd_mem (fun m => set_heap (heap m ++
    [ {| rc_config := config; rc_name := nm; rc_namespace := ns;
         rc_config_path := config_path ns nm;
         rc_subprocess := None;
         rc_subprocess_name := nm ++ "," ++ ns;
         rc_monitor_stop_event := ev;
         rc_handler := self |} ]) m)) ;;
  setup_logging self ;;
  ret self.

Definition set_config (self : nat) (config : PyVal) : M unit :=
  update_obj self (set_rc_config config).

(** [write_config]: the file is opened for writing in the namespace
    directory that [__init__] has made; a directory removed from outside
    is not modelled. *)
Definition write_config (self : nat) : M unit :=
  let* rc := deref self in
  modify (upd_world (fun w =>
    set_files (<[rc_config_path rc := rc_config rc]> (files w)) w)) ;;
  emit (EWrite (rc_config_path rc) (rc_config rc)).

Definition delete_config (self : nat) : M unit :=
  let* rc := deref self in
  try_except (os_remove (rc_config_path rc))
    (fun e => match e with
              | OSError => ret tt
              | _ => raise e
              end).

Definition start_head (self : nat) (restart_ray : bool) : M unit :=
  write_config self ;;
  let no_restart := negb restart_ray in
  let* rc := deref self in
  let* seen := gets (fun s => files (world s) !! rc_config_path rc) in
  emit (EProvision (rc_config_path rc) seen no_restart) ;;
  let* config := call (create_or_update_cluster (rc_config_path rc) seen no_restart) in
  update_obj self (set_rc_config config) ;;
  write_config self.

Definition start_monitor (self : nat) (fault : option PyExc) : M unit :=
  let* rc := deref self in
  let* seen := gets (fun s => files (world s) !! rc_config_path rc) in
  let* ray_head_pod_ip := call (get_head_node_ip (rc_config_path rc) seen) in
  let* port := call (infer_head_port (rc_config rc)) in
  let redis_address := address ray_head_pod_ip port in
  emit (EMonitor redis_address (rc_config_path rc)) ;;
  Monitor_run (rc_monitor_stop_event rc) fault.

(** The entry point of the supervised process.  A process that was left
    waiting in [self.mtr.run()] is at stage [Monitoring] and continues
    there, inside the same [try]. *)
Definition _create_or_update (self : nat) (restart_ray : bool)
    (st : Stage) (fault : option PyExc) : M unit :=
  try_except
    (match st with
     | Started => start_head self restart_ray ;; start_monitor self fault
     | _ => let* rc := deref self in
            Monitor_run (rc_monitor_stop_event rc) fault
     end)
    (fun e =>
       let* rc := deref self in
       q_put (Some (rc_name rc, rc_namespace rc, STATUS_AUTOSCALING_EXCEPTION)) ;;
       raise e).

(** The supervised process [pid] runs until it exits or waits. *)
Definition run_proc (pid : nat) (fault : option PyExc) (w : World) : World :=
  match procs w !! pid with
  | Some p =>
      match p_stage p with
      | Exited _ => w
      | st =>
          let '(r, s') :=
            _create_or_update (p_self p) (p_restart_ray p) st fault
              {| mem := p_mem p; world := w |} in
          let st' := match r with
                     | Ok _ => Exited None
                     | Exc e => Exited (Some e)
                     | Blocked => Monitoring
                     end in
          set_procs (<[pid := set_p_stage st' (set_p_mem (mem s') p)]> (procs (world s')))
            (world s')
      end
  | None => w
  end.

(** [process.join()] *)
Definition Process_join (pid : nat) : M unit :=
  modify (upd_world (run_proc pid None)) ;;
  let* alive := is_alive pid in
  if alive then block else emit (EJoin pid).

(** [process.start()]: the child is a copy of the caller's memory. *)
Definition Process_start (name : string) (self : nat) (restart_ray : bool) : M unit :=
  let* pid := gets (fun s => length (procs (world s))) in
  modify (fun s => upd_world (fun w => set_procs (procs w ++
    [ {| p_name := name; p_self := self; p_restart_ray := restart_ray;
         p_mem := mem s; p_stage := Started |} ]) w) s) ;;
  emit (EProcStart pid name restart_ray).

Definition clean_up_subprocess (self : nat) : M unit :=
  let* rc := deref self in
  match rc_subprocess rc with
  | Some pid =>
      let* alive := is_alive pid in
      if alive then
        Event_set (rc_monitor_stop_event rc) ;;
        Process_join pid ;;
        Event_clear (rc_monitor_stop_event rc)
      else ret tt
  | None => ret tt
  end.

(** [do_in_subprocess(self._create_or_update, args=(restart_ray,))], the
    only use of [do_in_subprocess]. *)
Definition do_in_subprocess (self : nat) (restart_ray : bool) : M unit :=
  clean_up_subprocess self ;;
  let* rc := deref self in
  let* pid := gets (fun s => length (procs (world s))) in
  update_obj self (set_rc_subprocess (Some pid)) ;;
  Process_start (rc_subprocess_name rc) self restart_ray.

Definition create_or_update (self : nat) (restart_ray : bool) : M unit :=
  do_in_subprocess self restart_ray.

Definition clean_up (self : nat) : M unit :=
  clean_up_subprocess self ;;
  clean_up_logging self ;;
  delete_config self.

(** ** The status worker *)

(** [set_status] inside its [try]: a failure is logged and dropped. *)
Definition report (item : StatusItem) : M unit :=
  let '(cluster_name, cluster_namespace, phase) := item in
  try_except
    (call (set_status cluster_name cluster_namespace phase) ;;
     modify (upd_world (fun w => set_status_writes (status_writes w ++ [item]) w)) ;;
     emit (ESetStatus item))
    (fun _ => ret tt).

(** The loop, by recursion on what the queue holds: [queue.get()] takes
    the first item and waits when there is none. *)
Fixpoint status_handling_loop_from (q : list (option StatusItem)) : M unit :=
  match q with
  | [] => block
  | item :: rest =>
      modify (upd_mem (set_cluster_status_q rest)) ;;
      match item with
      | None => ret tt
      | Some it => report it ;; status_handling_loop_from rest
      end
  end.

Definition status_handling_loop (queue : QueueRef) : M unit :=
  fun s => status_handling_loop_from (cluster_status_q (mem s)) s.

(** The thread calls its target [status_handling_loop] with the positional
    arguments it was built with; the target has one required positional
    parameter. *)
Definition thread_target (args : list QueueRef) : M unit :=
  match args with
  | [queue] => status_handling_loop queue
  | _ => raise TypeError
  end.

(** The worker thread runs until it finishes or waits. *)
Definition Thread_step : M unit :=
  fun s =>
    match status_handler (mem s) with
    | Some t =>
        match t_state t with
        | ThreadWaiting =>
            let '(r, s') := thread_target (t_args t) s in
            let st := match r with
                      | Ok _ => ThreadDone None
                      | Exc e => ThreadDone (Some e)
                      | Blocked => ThreadWaiting
                      end in
            (Ok tt, upd_mem (set_status_handler (Some {| t_args := t_args t; t_state := st |})) s')
        | ThreadDone _ => (Ok tt, s)
        end
    | None => (Ok tt, s)
    end.

(** [memo.status_handler.join()] *)
Definition Thread_join : M unit :=
  let* h := gets (fun s => status_handler (mem s)) in
  match h with
  | None => raise AttributeError
  | Some _ =>
      Thread_step ;;
      let* h' := gets (fun s => status_handler (mem s)) in
      match h' with
      | Some {| t_state := ThreadWaiting |} => block
      | _ => ret tt
      end
  end.

Definition start_background_worker : M unit :=
  modify (upd_mem (set_status_handler (Some {| t_args := []; t_state := ThreadWaiting |}))) ;;
  Thread_step.

Definition stop_background_worker : M unit :=
  q_put None ;;
  Thread_join.

(** ** The handlers *)

Definition create_fn (body : PyVal) (name namespace : string) : M unit :=
  let* cluster_config := call (cr_to_config body) in
  let cluster_identifier := (name, namespace) in
  call (check_redis_password_not_specified cluster_config cluster_identifier) ;;
  let* ray_cluster := RayCluster_init cluster_config in
  modify (upd_mem (fun m =>
    set_ray_clusters (<[cluster_identifier := ray_cluster]> (ray_clusters m)) m)) ;;
  q_put (Some (name, namespace, STATUS_UPDATING)) ;;
  create_or_update ray_cluster false ;;
  q_put (Some (name, namespace, STATUS_RUNNING)).

Definition generation_of (b : PyVal) : Outcome PyVal :=
  match py_getitem b "metadata" with
  | Returns md => py_getitem md "generation"
  | Raises e => Raises e
  end.

Definition retries_of (b : PyVal) : Outcome PyVal :=
  match py_get b "status" (VDict []) with
  | Returns st => py_get st AUTOSCALER_RETRIES_FIELD (VInt 0)
  | Raises e => Raises e
  end.

Definition update_fn (body old new : PyVal) (name namespace : string) : M unit :=
  let* cluster_config := call (cr_to_config body) in
  let cluster_identifier := (name, namespace) in
  let* old_generation := call (generation_of old) in
  let* current_generation := call (generation_of new) in
  let* old_autoscaler_retries := call (retries_of old) in
  let* autoscaler_retries := call (retries_of new) in
  let* spec_changed := call (py_gt current_generation old_generation) in
  let* ray_restart_required := call (py_gt autoscaler_retries old_autoscaler_retries) in
  if spec_changed || ray_restart_required then
    let* found := gets (fun s => ray_clusters (mem s) !! cluster_identifier) in
    let* ray_cluster :=
      match found with
      | Some o => ret o
      | None =>
          let* o := RayCluster_init cluster_config in
          modify (upd_mem (fun m =>
            set_ray_clusters (<[cluster_identifier := o]> (ray_clusters m)) m)) ;;
          ret o
      end in
    q_put (Some (name, namespace, STATUS_UPDATING)) ;;
    clean_up_subprocess ray_cluster ;;
    set_config ray_cluster cluster_config ;;
    create_or_update ray_cluster ray_restart_required ;;
    q_put (Some (name, namespace, STATUS_RUNNING))
  else ret tt.

Definition delete_fn (name namespace : string) : M unit :=
  let cluster_identifier := (name, namespace) in
  let* found := gets (fun s => ray_clusters (mem s) !! cluster_identifier) in
  match found with
  | None => ret tt
  | Some ray_cluster =>
      clean_up ray_cluster ;;
      modify (upd_mem (fun m =>
        set_ray_clusters (delete cluster_identifier (ray_clusters m)) m))
  end.

(** ** The operator as a system *)

(** What the watch framework and the scheduler make happen. *)
Inductive Event : Type :=
| EvStartup
| EvCleanup
| EvCreate (body : PyVal) (name namespace : string)
| EvUpdate (body old new : PyVal) (name namespace : string)
| EvDelete (name namespace : string)
| EvProc (pid : nat) (fault : option PyExc)
| EvWorker.

Definition handle (e : Event) (s : State) : State :=
  match e with
  | EvStartup => snd (start_background_worker s)
  | EvCleanup => snd (stop_background_worker s)
  | EvCreate body name namespace => snd (create_fn body name namespace s)
  | EvUpdate body old new name namespace => snd (update_fn body old new name namespace s)
  | EvDelete name namespace => snd (delete_fn name namespace s)
  | EvProc pid fault => upd_world (run_proc pid fault) s
  | EvWorker => snd (Thread_step s)
  end.

Definition run (evs : list Event) (s : State) : State :=
  fold_left (fun s e => handle e s) evs s.

End Operator.

Definition init : State :=
  {| mem := {| ray_clusters := ∅; heap := []; cluster_status_q := [];
               root_logger := []; status_handler := None; journal := [] |};
     world := {| files := ∅; dirs := ∅; procs := []; events := [];
                 status_writes := [] |} |}.

(** ** Notions used to state the properties *)

(** Two versions of one supervisor object: they differ at most in [config],
    the only attribute rewritten after construction besides [subprocess]. *)
Definition same_ident (rc rc' : RayCluster) : Prop :=
  set_rc_config VNone rc = set_rc_config VNone rc'.

Definition proc_alive (w : World) (pid : nat) : bool :=
  match procs w !! pid with
  | Some p => stage_alive (p_stage p)
  | None => false
  end.

(** The cluster a supervised process works for: name and namespace of the
    supervisor object whose method it runs. *)
Definition proc_cluster (p : Proc) : option (string * string) :=
  match heap (p_mem p) !! p_self p with
  | Some rc => Some (rc_name rc, rc_namespace rc)
  | None => None
  end.

(** Name and namespace that [RayCluster(config)] reads off a configuration
    document, when it has them as strings. *)
Definition config_names (config : PyVal) : option (string * string) :=
  match py_getitem config "cluster_name", py_getitem config "provider" with
  | Returns (VStr nm), Returns provider =>
      match py_getitem provider "namespace" with
      | Returns (VStr ns) => Some (nm, ns)
      | _ => None
      end
  | _, _ => None
  end.

(** The states the operator can be in between two events: references are
    valid and every live supervised process is the one its supervisor
    object tracks. *)
Record wf (s : State) : Prop := {
  wf_registry : ∀ K o, ray_clusters (mem s) !! K = Some o → o < length (heap (mem s));
  wf_event : ∀ o rc, heap (mem s) !! o = Some rc →
      rc_monitor_stop_event rc < length (events (world s));
  wf_subprocess : ∀ o rc pid, heap (mem s) !! o = Some rc →
      rc_subprocess rc = Some pid →
      ∃ p, procs (world s) !! pid = Some p ∧ p_self p = o;
  wf_live : ∀ pid p, procs (world s) !! pid = Some p →
      stage_alive (p_stage p) = true →
      ∃ rc rc', heap (mem s) !! p_self p = Some rc ∧ rc_subprocess rc = Some pid ∧
                heap (p_mem p) !! p_self p = Some rc' ∧ same_ident rc rc'
}.

(** What the status worker leaves alone. *)
Definition worker_frame (s s' : State) : Prop :=
  ray_clusters (mem s') = ray_clusters (mem s) ∧
  heap (mem s') = heap (mem s) ∧
  root_logger (mem s') = root_logger (mem s) ∧
  procs (world s') = procs (world s) ∧
  events (world s') = events (world s) ∧
  files (world s') = files (world s) ∧
  dirs (world s') = dirs (world s).

Section Notions.
Context `{C : Collaborators}.

(** What [clean_up_subprocess] does for a supervisor object [rc]: the
    effects it performs and the world it leaves. *)
Definition stop_effects (rc : RayCluster) (w : World) : list Effect :=
  match rc_subprocess rc with
  | Some pid =>
      if proc_alive w pid then
        [EEventSet (rc_monitor_stop_event rc); EJoin pid;
         EEventClear (rc_monitor_stop_event rc)]
      else []
  | None => []
  end.

Definition stop_world (rc : RayCluster) (w : World) : World :=
  match rc_subprocess rc with
  | Some pid =>
      if proc_alive w pid then
        let ev := rc_monitor_stop_event rc in
        let w1 := run_proc pid None (set_events (<[ev := true]> (events w)) w) in
        set_events (<[ev := false]> (events w1)) w1
      else w
  | None => w
  end.

(** The object that [RayCluster(config)] builds at address [self] with the
    stop event [ev], and the state the constructor leaves. *)
Definition new_cluster (config : PyVal) (nm ns : string) (ev self : nat) : RayCluster :=
  {| rc_config := config; rc_name := nm; rc_namespace := ns;
     rc_config_path := config_path ns nm;
     rc_subprocess := None;
     rc_subprocess_name := nm ++ "," ++ ns;
     rc_monitor_stop_event := ev;
     rc_handler := self |}.

Definition after_init (config : PyVal) (nm ns : string) (s : State) : State :=
  let self := length (heap (mem s)) in
  {| mem := set_journal (journal (mem s) ++ [EMakedirs (namespace_dir ns); EAddHandler self])
              (set_root_logger (root_logger (mem s) ++ [self])
                 (set_heap (heap (mem s) ++
                    [new_cluster config nm ns (length (events (world s))) self]) (mem s)));
     world := set_events (events (world s) ++ [false])
                (set_dirs ({[namespace_dir ns]} ∪ dirs (world s)) (world s)) |}.

(** The state [clean_up_subprocess] leaves for the supervisor object [rc]. *)
Definition after_stop (rc : RayCluster) (s : State) : State :=
  {| mem := set_journal (journal (mem s) ++ stop_effects rc (world s)) (mem s);
     world := stop_world rc (world s) |}.

(** The state in which the supervisor object at [self] has started a new
    process: the object tracks it, and the child holds a copy of the memory
    as it was when it was forked. *)
Definition after_start (self : nat) (rc : RayCluster) (restart_ray : bool) (s : State) : State :=
  let pid := length (procs (world s)) in
  let m := set_heap (alter (set_rc_subprocess (Some pid)) self (heap (mem s))) (mem s) in
  {| mem := set_journal (journal m ++ [EProcStart pid (rc_subprocess_name rc) restart_ray]) m;
     world := set_procs (procs (world s) ++
                [ {| p_name := rc_subprocess_name rc; p_self := self;
                     p_restart_ray := restart_ray; p_mem := m; p_stage := Started |} ])
                (world s) |}.

(** The state [clean_up] leaves for the supervisor object [rc]. *)
Definition after_clean_up (rc : RayCluster) (s : State) : State :=
  let s1 := after_stop rc s in
  let removed :=
    match files (world s1) !! rc_config_path rc with
    | Some _ => [ERemove (rc_config_path rc)]
    | None => []
    end in
  {| mem := set_journal (journal (mem s1) ++ ERemoveHandler (rc_handler rc) :: removed)
              (set_root_logger (remove_first (rc_handler rc) (root_logger (mem s1))) (mem s1));
     world := set_files (delete (rc_config_path rc) (files (world s1))) (world s1) |}.

(** What the update handler finds out from the old and the new body before
    it acts: [spec_changed] and [ray_restart_required]. *)
Definition update_verdict (old new : PyVal) : Outcome (bool * bool) :=
  match generation_of old with
  | Raises e => Raises e
  | Returns old_generation =>
  match generation_of new with
  | Raises e => Raises e
  | Returns current_generation =>
  match retries_of old with
  | Raises e => Raises e
  | Returns old_autoscaler_retries =>
  match retries_of new with
  | Raises e => Raises e
  | Returns autoscaler_retries =>
  match py_gt current_generation old_generation with
  | Raises e => Raises e
  | Returns spec_changed =>
  match py_gt autoscaler_retries old_autoscaler_retries with
  | Raises e => Raises e
  | Returns ray_restart_required => Returns (spec_changed, ray_restart_required)
  end end end end end end.

Definition put_updating (name namespace : string) (s : State) : State :=
  snd (q_put (Some (name, namespace, STATUS_UPDATING)) s).
Definition put_running (name namespace : string) (s : State) : State :=
  snd (q_put (Some (name, namespace, STATUS_RUNNING)) s).
Definition register (K : string * string) (o : nat) (s : State) : State :=
  upd_mem (fun m => set_ray_clusters (<[K := o]> (ray_clusters m)) m) s.
Definition unregister (K : string * string) (s : State) : State :=
  upd_mem (fun m => set_ray_clusters (delete K (ray_clusters m)) m) s.

(** The state the create handler leaves when the configuration passes the
    checks and names the cluster [(nm, ns)]. *)
Definition after_create (config : PyVal) (nm ns name namespace : string) (s : State) : State :=
  let o := length (heap (mem s)) in
  let rc := new_cluster config nm ns (length (events (world s))) o in
  let s1 := register (name, namespace) o (after_init config nm ns s) in
  let s2 := put_updating name namespace s1 in
  put_running name namespace (after_start o rc false (after_stop rc s2)).

(** The state the update handler leaves when it acts on the supervisor
    object [rc] at address [o]. *)
Definition after_update (o : nat) (rc : RayCluster) (config : PyVal) (restart_ray : bool)
    (name namespace : string) (s : State) : State :=
  let s1 := put_updating name namespace s in
  let s2 := after_stop rc s1 in
  let s3 := snd (set_config o config s2) in
  let rc3 := set_rc_config config rc in
  put_running name namespace (after_start o rc3 restart_ray (after_stop rc3 s3)).

(** The supervisor the update handler works on: the one the registry has
    for [K] (then [s0] is the state as it was), or a new one built from
    [config] and registered under [K] (then [s0] is the state with it). *)
Definition looked_up_or_created (config : PyVal) (K : string * string)
    (s : State) (o : nat) (rc : RayCluster) (s0 : State) : Prop :=
  (ray_clusters (mem s) !! K = Some o ∧ heap (mem s) !! o = Some rc ∧ s0 = s) ∨
  (ray_clusters (mem s) !! K = None ∧
   ∃ nm ns, config_names config = Some (nm, ns) ∧
            o = length (heap (mem s)) ∧
            rc = new_cluster config nm ns (length (events (world s))) o ∧
            s0 = register K o (after_init config nm ns s)).

End Notions.

(** ** Shapes of resource bodies *)

(** A body that has no [metadata], or whose [metadata] mapping has no
    [generation]. *)
Definition lacks_generation (b : PyVal) : bool :=
  match b with
  | VDict kvs =>
      match assoc "metadata" kvs with
      | None => true
      | Some (VDict md) =>
          match assoc "generation" md with
          | None => true
          | Some _ => false
          end
      | Some _ => false
      end
  | _ => false
  end.

(** A body is a mapping whose [metadata], when present, is a mapping. *)
Definition resource_body (b : PyVal) : bool :=
  match b with
  | VDict kvs =>
      match assoc "metadata" kvs with
      | None => true
      | Some (VDict _) => true
      | Some _ => false
      end
  | _ => false
  end.

(** The retry field as the body has it, and its value once defaulted. *)
Definition retries_field `{C : Collaborators} (b : PyVal) : option PyVal :=
  match b with
  | VDict kvs =>
      match assoc "status" kvs with
      | Some (VDict st) => assoc AUTOSCALER_RETRIES_FIELD st
      | _ => None
      end
  | _ => None
  end.

Definition retries_value `{C : Collaborators} (b : PyVal) : PyVal :=
  default (VInt 0) (retries_field b).

(** ** A sample environment, for concrete runs *)

Definition sample_cr_to_config (body : PyVal) : Outcome PyVal :=
  match py_getitem body "metadata" with
  | Returns md =>
      match py_getitem md "name", py_getitem md "namespace", py_getitem body "spec" with
      | Returns n, Returns ns, Returns sp =>
          Returns (VDict [("cluster_name", n);
                          ("provider", VDict [("namespace", ns)]);
                          ("spec", sp)])
      | Raises e, _, _ | _, Raises e, _ | _, _, Raises e => Raises e
      end
  | Raises e => Raises e
  end.

(** Provisioning fails on a spec that says ["broken"] and otherwise
    returns the document it read, with the head address added. *)
Definition sample_provision (path : string) (seen : option PyVal) (no_restart : bool)
  : Outcome PyVal :=
  match seen with
  | Some (VDict kvs) =>
      match assoc "spec" kvs with
      | Some (VStr "broken") => Raises (ExternalError "provisioning")
      | _ => Returns (VDict (kvs ++ [("head_ip", VStr "10.0.0.1")]))
      end
  | _ => Raises OSError
  end.

Definition sample_head_ip (path : string) (seen : option PyVal) : Outcome string :=
  match seen with
  | Some (VDict kvs) =>
      match assoc "head_ip" kvs with
      | Some (VStr ip) => Returns ip
      | _ => Raises (ExternalError "no head")
      end
  | _ => Raises OSError
  end.

Definition sample : Collaborators := {|
  cr_to_config := sample_cr_to_config;
  check_redis_password_not_specified := fun _ _ => Returns tt;
  namespace_dir := fun ns => "/ray/" ++ ns;
  config_path := fun ns n => "/ray/" ++ ns ++ "/" ++ n ++ ".yaml";
  infer_head_port := fun _ => Returns "6379";
  set_status := fun _ _ _ => Returns tt;
  AUTOSCALER_RETRIES_FIELD := "autoscalerRetries";
  create_or_update_cluster := sample_provision;
  get_head_node_ip := sample_head_ip
|}.

(** The record of cluster [foo] in namespace [ns1]. *)
Definition foo_body (generation : Z) (retries : option Z) (spec : string) : PyVal :=
  VDict ([("metadata", VDict [("name", VStr "foo"); ("namespace", VStr "ns1");
                              ("generation", VInt generation)]);
          ("spec", VStr spec)] ++
         match retries with
         | Some r => [("status", VDict [("autoscalerRetries", VInt r)])]
         | None => []
         end).

(** The same record without [metadata.generation]. *)
Definition foo_body_no_generation : PyVal :=
  VDict [("metadata", VDict [("name", VStr "foo"); ("namespace", VStr "ns1")]);
         ("spec", VStr "ok")].

(** The handlers and supervised processes hand status items to the queue
    one after the other. *)
Definition enqueue (items : list StatusItem) (s : State) : State :=
  fold_left (fun s item => snd (q_put (Some item) s)) items s.

(** ** Events that put an identifier into the registry *)

(** A create event gets as far as [ray_clusters[cluster_identifier] = ...]
    when the configuration is built, passes the password check and names
    the cluster, so that [RayCluster(config)] returns. *)
Definition create_registers `{C : Collaborators} (body : PyVal) (K : string * string) : bool :=
  match cr_to_config body with
  | Returns config =>
      match check_redis_password_not_specified config K with
      | Returns _ => bool_decide (is_Some (config_names config))
      | Raises _ => false
      end
  | Raises _ => false
  end.

(** An update event that acts builds a supervisor for an identifier the
    registry does not have, under the same condition on the configuration. *)
Definition update_registers `{C : Collaborators} (body old new : PyVal) : bool :=
  match cr_to_config body, update_verdict old new with
  | Returns config, Returns (spec_changed, ray_restart_required) =>
      (spec_changed || ray_restart_required) && bool_decide (is_Some (config_names config))
  | _, _ => false
  end.

(** The identifiers the events processed so far have left registered. *)
Definition tracked_step `{C : Collaborators} (T : gset (string * string)) (e : Event)
  : gset (string * string) :=
  match e with
  | EvCreate body name namespace =>
      if create_registers body (name, namespace) then {[(name, namespace)]} ∪ T else T
  | EvUpdate body old new name namespace =>
      if update_registers body old new then {[(name, namespace)]} ∪ T else T
  | EvDelete name namespace => T ∖ {[(name, namespace)]}
  | _ => T
  end.

Definition tracked `{C : Collaborators} (evs : list Event) : gset (string * string) :=
  fold_left tracked_step evs ∅.

(** ** One process for each cluster *)

Definition cluster_of (rc : RayCluster) : string * string :=
  (rc_name rc, rc_namespace rc).

(** No two live supervised processes work for the same cluster. *)
Definition one_process_each (s : State) : Prop :=
  ∀ pid1 pid2 p1 p2,
    procs (world s) !! pid1 = Some p1 → procs (world s) !! pid2 = Some p2 →
    stage_alive (p_stage p1) = true → stage_alive (p_stage p2) = true →
    proc_cluster p1 = proc_cluster p2 → pid1 = pid2.

(** The registry files every supervisor object under the cluster it was
    built for, and every live process runs for the object the registry has
    for its cluster. *)
Record keyed (s : State) : Prop := {
  keyed_registry : ∀ K o rc,
    ray_clusters (mem s) !! K = Some o → heap (mem s) !! o = Some rc → cluster_of rc = K;
  keyed_live : ∀ pid p rc,
    procs (world s) !! pid = Some p → stage_alive (p_stage p) = true →
    heap (mem s) !! p_self p = Some rc →
    ray_clusters (mem s) !! cluster_of rc = Some (p_self p)
}.

(** The configuration built from the body names the cluster the event is
    about, when it names one. *)
Definition names_agree `{C : Collaborators} (body : PyVal) (K : string * string) : bool :=
  match cr_to_config body with
  | Returns config =>
      match config_names config with
      | Some K' => bool_decide (K' = K)
      | None => true
      end
  | Raises _ => true
  end.

(** An event the framework delivers in state [s]: a create event comes for
    a cluster the registry does not hold. *)
Definition event_ok `{C : Collaborators} (s : State) (e : Event) : bool :=
  match e with
  | EvCreate body name namespace =>
      bool_decide (ray_clusters (mem s) !! (name, namespace) = None) &&
      names_agree body (name, namespace)
  | EvUpdate body _ _ name namespace => names_agree body (name, namespace)
  | _ => true
  end.

Fixpoint admissible `{C : Collaborators} (evs : list Event) (s : State) : bool :=
  match evs with
  | [] => true
  | e :: evs' => event_ok s e && admissible evs' (handle e s)
  end.

(** ** What the status loop gets written *)

(** [set_status] returns for this item, so that the item counts as
    written; when it raises, the loop logs the failure and goes on. *)
Definition status_set `{C : Collaborators} (item : StatusItem) : bool :=
  let '(cluster_name, cluster_namespace, phase) := item in
  match set_status cluster_name cluster_namespace phase with
  | Returns _ => true
  | Raises _ => false
  end.

(** The configuration [sample] builds for cluster [foo], and the
    supervisor object the create handler makes of it at address 0. *)
Definition foo_config (spec : string) : PyVal :=
  VDict [("cluster_name", VStr "foo");
         ("provider", VDict [("namespace", VStr "ns1")]);
         ("spec", VStr spec)].

Definition foo_cluster (spec : string) (subprocess : option nat) : RayCluster :=
  {| rc_config := foo_config spec;
     rc_name := "foo"; rc_namespace := "ns1";
     rc_config_path := "/ray/ns1/foo.yaml";
     rc_subprocess := subprocess; rc_subprocess_name := "foo,ns1";
     rc_monitor_stop_event := 0; rc_handler := 0 |}.

(** Cluster [foo] created, its process at the monitor. *)
Definition foo_running : State :=
  @run sample [EvCreate (foo_body 1 None "ok") "foo" "ns1"; EvProc 0 None] init.

(** The sample environment with a password check that refuses a spec that
    says ["redis_password"]. *)
Definition guarded : Collaborators := {|
  cr_to_config := sample_cr_to_config;
  check_redis_password_not_specified := fun config _ =>
    match py_getitem config "spec" with
    | Returns (VStr "redis_password") => Raises (ExternalError "redis password specified")
    | _ => Returns tt
    end;
  namespace_dir := fun ns => "/ray/" ++ ns;
  config_path := fun ns n => "/ray/" ++ ns ++ "/" ++ n ++ ".yaml";
  infer_head_port := fun _ => Returns "6379";
  set_status := fun _ _ _ => Returns tt;
  AUTOSCALER_RETRIES_FIELD := "autoscalerRetries";
  create_or_update_cluster := sample_provision;
  get_head_node_ip := sample_head_ip
|}.

(** * Properties *)

Ltac unfold_m :=
  unfold bind, ret, raise, call, gets, modify, try_except, block, emit, deref, update_obj,
    upd_mem, upd_world in *.

Ltac step_match :=
  match goal with
  | H : (_, _) = (_, _) |- _ => inversion H; subst; clear H
  | H : context [match ?x with _ => _ end] |- _ =>
      lazymatch x with
      | context [match _ with _ => _ end] => fail
      | _ => destruct x eqn:?
      end
  end.

(** One step of a handler whose first statement is a call that returns. *)
Ltac run_call H :=
  unfold bind at 1; unfold call at 1; rewrite H; unfold ret at 1; cbn beta iota zeta.

(** One step of a handler whose first statement is known to give [E]. *)
Ltac run_step E :=
  unfold bind at 1; rewrite E; cbn beta iota zeta.

(** One step through the checks of the update handler, following the
    verdict [H] on its two bodies. *)
Ltac verdict_step H :=
  match type of H with
  | match ?x with _ => _ end = _ =>
      let E := fresh "E" in
      destruct x eqn:E;
      [ unfold bind at 1; unfold call at 1; unfold ret at 1; cbn beta iota zeta
      | unfold bind at 1; unfold call at 1; unfold raise at 1; cbn beta iota zeta ]
  end.

Ltac unfold_child :=
  unfold _create_or_update, start_head, start_monitor, write_config, Monitor_run,
    q_put, Event_is_set.

Section Facts.
Context `{C : Collaborators}.

Lemma same_ident_refl rc : same_ident rc rc.
Proof. reflexivity. Qed.

Lemma same_ident_trans a b c : same_ident a b → same_ident b c → same_ident a c.
Proof. unfold same_ident. congruence. Qed.

Lemma same_ident_sym a b : same_ident a b → same_ident b a.
Proof. unfold same_ident. congruence. Qed.

Lemma same_ident_config c rc : same_ident rc (set_rc_config c rc).
Proof. reflexivity. Qed.

Lemma same_ident_fields a b :
  same_ident a b →
  rc_name a = rc_name b ∧ rc_namespace a = rc_namespace b ∧
  rc_config_path a = rc_config_path b ∧ rc_subprocess a = rc_subprocess b ∧
  rc_monitor_stop_event a = rc_monitor_stop_event b ∧ rc_handler a = rc_handler b.
Proof.
  unfold same_ident, set_rc_config. intros H. injection H. intros. repeat split; assumption.
Qed.

(** *** The supervised process *)

(** The entry point touches nothing of the shared world but files. *)
Lemma child_world self restart st fault s r s' :
  _create_or_update self restart st fault s = (r, s') →
  world s' = set_files (files (world s')) (world s).
Proof.
  unfold_child. unfold_m. intros H.
  destruct s as [m w]. simpl in *.
  repeat (step_match; simpl in *); try reflexivity; destruct w; reflexivity.
Qed.

Lemma alter_config_lookup c self (h : list RayCluster) o rc :
  h !! o = Some rc →
  ∃ rc', alter (set_rc_config c) self h !! o = Some rc' ∧ same_ident rc rc'.
Proof.
  intros H. destruct (decide (self = o)) as [->|Hne].
  - rewrite list_lookup_alter_eq, H. simpl. eexists. split; [reflexivity|]. apply same_ident_config.
  - rewrite list_lookup_alter_ne by done. eexists. split; [eassumption|]. apply same_ident_refl.
Qed.

(** In its own memory it rewrites only the [config] of objects. *)
Lemma child_heap self restart st fault s r s' :
  _create_or_update self restart st fault s = (r, s') →
  ∀ o rc, heap (mem s) !! o = Some rc →
          ∃ rc', heap (mem s') !! o = Some rc' ∧ same_ident rc rc'.
Proof.
  unfold_child. unfold_m. intros H o rc Ho.
  destruct s as [m w]. simpl in *.
  repeat (step_match; simpl in * );
    first [ by (eexists; split; [eassumption | apply same_ident_refl])
          | by apply alter_config_lookup ].
Qed.

(** With the stop event set and no fault, it does not stay in the monitor. *)
Lemma child_stops self restart st s r s' rc :
  heap (mem s) !! self = Some rc →
  events (world s) !! rc_monitor_stop_event rc = Some true →
  _create_or_update self restart st None s = (r, s') →
  r ≠ Blocked.
Proof.
  unfold_child. unfold_m. intros Hrc Hev H.
  destruct s as [m w]. simpl in *.
  destruct st; simpl in H; rewrite ?Hrc in H; simpl in H;
    repeat (step_match; simpl in * ); try discriminate;
    repeat match goal with
           | H : alter _ _ _ !! _ = _ |- _ => rewrite list_lookup_alter_eq in H
           end;
    repeat match goal with
           | H : _ <$> _ = Some _ |- _ => apply fmap_Some in H as (? & ? & ?)
           end;
    simplify_eq/=;
    repeat match goal with
           | H : default false (events _ !! _) = false |- _ => rewrite Hev in H
           end; done.
Qed.

Lemma child_procs self restart st fault s r s' :
  _create_or_update self restart st fault s = (r, s') →
  procs (world s') = procs (world s) ∧ events (world s') = events (world s) ∧
  dirs (world s') = dirs (world s) ∧ status_writes (world s') = status_writes (world s).
Proof.
  intros H. apply child_world in H. rewrite H. done.
Qed.

Lemma run_proc_frame pid fault w :
  events (run_proc pid fault w) = events w ∧
  dirs (run_proc pid fault w) = dirs w ∧
  status_writes (run_proc pid fault w) = status_writes w ∧
  length (procs (run_proc pid fault w)) = length (procs w).
Proof.
  unfold run_proc. destruct (procs w !! pid) as [p|] eqn:Hp; [|done].
  destruct (p_stage p); try done.
  all: match goal with
       | |- context [_create_or_update ?a ?b ?c ?d ?s] =>
           destruct (_create_or_update a b c d s) as [r s'] eqn:E
       end;
    apply child_procs in E as (E1 & E2 & E3 & E4); simpl in *;
    rewrite length_insert, E1; done.
Qed.

Lemma run_proc_other pid fault w i :
  i ≠ pid → procs (run_proc pid fault w) !! i = procs w !! i.
Proof.
  intros Hne. unfold run_proc. destruct (procs w !! pid) as [p|] eqn:Hp; [|done].
  destruct (p_stage p); try done.
  all: match goal with
       | |- context [_create_or_update ?a ?b ?c ?d ?s] =>
           destruct (_create_or_update a b c d s) as [r s'] eqn:E
       end;
    apply child_procs in E as (E1 & _); simpl in *;
    rewrite list_lookup_insert_ne, E1 by done; done.
Qed.

(** What a run changes in the process itself. *)
Lemma run_proc_at pid fault w p :
  procs w !! pid = Some p →
  ∃ p', procs (run_proc pid fault w) !! pid = Some p' ∧
        p_self p' = p_self p ∧ p_name p' = p_name p ∧
        p_restart_ray p' = p_restart_ray p ∧
        (stage_alive (p_stage p') = true → stage_alive (p_stage p) = true) ∧
        (∀ o rc, heap (p_mem p) !! o = Some rc →
                 ∃ rc', heap (p_mem p') !! o = Some rc' ∧ same_ident rc rc').
Proof.
  intros Hp. unfold run_proc. rewrite Hp.
  destruct (p_stage p) eqn:Hst.
  3: { exists p. rewrite Hp, Hst. repeat split; try done.
       intros o rc Ho. exists rc. split; [done | apply same_ident_refl]. }
  all: match goal with
       | |- context [_create_or_update ?a ?b ?c ?d ?s] =>
           destruct (_create_or_update a b c d s) as [r s'] eqn:E
       end;
    pose proof (child_heap _ _ _ _ _ _ _ E) as Hh;
    apply child_procs in E as (E1 & _); simpl in *;
    eexists; split;
    [ apply list_lookup_insert_eq; rewrite E1; by eapply lookup_lt_Some
    | simpl; repeat split; try done ].
Qed.

(** Joined with its stop event set, the process has exited. *)
Lemma run_proc_exits pid w p rc :
  procs w !! pid = Some p →
  heap (p_mem p) !! p_self p = Some rc →
  events w !! rc_monitor_stop_event rc = Some true →
  proc_alive (run_proc pid None w) pid = false.
Proof.
  intros Hp Hrc Hev. unfold proc_alive, run_proc. rewrite Hp.
  destruct (p_stage p) eqn:Hst.
  3: { rewrite Hp, Hst. done. }
  all: match goal with
       | |- context [_create_or_update ?a ?b ?c ?d ?s] =>
           destruct (_create_or_update a b c d s) as [r s'] eqn:E
       end;
    pose proof (child_stops _ _ _ {| mem := p_mem p; world := w |} _ _ _ Hrc Hev E) as Hnb;
    apply child_procs in E as (E1 & _); simpl in *;
    rewrite list_lookup_insert_eq by (rewrite E1; by eapply lookup_lt_Some);
    simpl; by destruct r.
Qed.


(** *** The supervisor's methods, run in a well-formed state *)

Lemma state_eta (s : State) : {| mem := mem s; world := world s |} = s.
Proof. by destruct s. Qed.

Lemma mem_journal_nil (m : Mem) : set_journal (journal m ++ []) m = m.
Proof. destruct m. unfold set_journal. simpl. by rewrite app_nil_r. Qed.

Lemma is_alive_eq pid s : is_alive pid s = (Ok (proc_alive (world s) pid), s).
Proof. reflexivity. Qed.

Lemma clean_up_subprocess_exec s self rc :
  wf s → heap (mem s) !! self = Some rc →
  clean_up_subprocess self s = (Ok tt, after_stop rc s).
Proof.
  intros Hwf Hrc. unfold after_stop, clean_up_subprocess, stop_effects, stop_world.
  unfold bind at 1. unfold deref. rewrite Hrc.
  destruct (rc_subprocess rc) as [pid|] eqn:Hsub.
  2: { unfold ret. by rewrite mem_journal_nil, state_eta. }
  unfold bind at 1. rewrite is_alive_eq.
  destruct (proc_alive (world s) pid) eqn:Halive.
  2: { unfold ret. by rewrite mem_journal_nil, state_eta. }
  destruct (wf_subprocess s Hwf _ _ _ Hrc Hsub) as (p & Hp & Hself).
  assert (Hst : stage_alive (p_stage p) = true).
  { unfold proc_alive in Halive. by rewrite Hp in Halive. }
  destruct (wf_live s Hwf _ _ Hp Hst) as (rc0 & rc' & H0 & _ & Hc & Hid).
  rewrite Hself, Hrc in H0. injection H0 as <-.
  apply same_ident_fields in Hid as (_ & _ & _ & _ & Hev & _).
  pose proof (wf_event s Hwf _ _ Hrc) as Hlt.
  set (w1 := set_events (<[rc_monitor_stop_event rc := true]> (events (world s))) (world s)).
  assert (Hdead : proc_alive (run_proc pid None w1) pid = false).
  { eapply run_proc_exits with (p := p); [done | exact Hc |].
    rewrite <- Hev. subst w1. simpl. by apply list_lookup_insert_eq. }
  unfold Event_set, Process_join, Event_clear. unfold_m. simpl.
  fold w1. unfold is_alive. unfold_m. simpl. unfold proc_alive in Hdead.
  destruct (procs (run_proc pid None w1) !! pid) as [p1|] eqn:Hp1; simpl.
  - rewrite Hdead. simpl. unfold set_journal. simpl.
    repeat rewrite <- app_assoc. reflexivity.
  - unfold set_journal. simpl. repeat rewrite <- app_assoc. reflexivity.
Qed.


Lemma stop_world_frame rc w :
  dirs (stop_world rc w) = dirs w ∧
  status_writes (stop_world rc w) = status_writes w ∧
  length (events (stop_world rc w)) = length (events w) ∧
  length (procs (stop_world rc w)) = length (procs w).
Proof.
  unfold stop_world. destruct (rc_subprocess rc) as [pid|]; [|done].
  destruct (proc_alive w pid); [|done]. simpl.
  match goal with |- context [run_proc ?a ?b ?c] =>
    destruct (run_proc_frame a b c) as (E1 & E2 & E3 & E4) end.
  rewrite length_insert, E1, E2, E3, E4. simpl. by rewrite length_insert.
Qed.

Lemma stop_world_proc rc w i p :
  procs w !! i = Some p →
  ∃ p', procs (stop_world rc w) !! i = Some p' ∧
        p_self p' = p_self p ∧ p_name p' = p_name p ∧
        p_restart_ray p' = p_restart_ray p ∧
        (stage_alive (p_stage p') = true → stage_alive (p_stage p) = true) ∧
        (∀ o rc0, heap (p_mem p) !! o = Some rc0 →
                  ∃ rc', heap (p_mem p') !! o = Some rc' ∧ same_ident rc0 rc') ∧
        (rc_subprocess rc ≠ Some i → p' = p).
Proof.
  intros Hp.
  assert (Hsame : ∃ p', procs w !! i = Some p' ∧
        p_self p' = p_self p ∧ p_name p' = p_name p ∧
        p_restart_ray p' = p_restart_ray p ∧
        (stage_alive (p_stage p') = true → stage_alive (p_stage p) = true) ∧
        (∀ o rc0, heap (p_mem p) !! o = Some rc0 →
                  ∃ rc', heap (p_mem p') !! o = Some rc' ∧ same_ident rc0 rc') ∧
        (rc_subprocess rc ≠ Some i → p' = p)).
  { exists p. repeat split; try done. intros o rc0 H0. exists rc0. split; [done|apply same_ident_refl]. }
  unfold stop_world. destruct (rc_subprocess rc) as [pid|]; [|done].
  destruct (proc_alive w pid); [|done]. simpl.
  set (w1 := set_events _ w).
  destruct (decide (i = pid)) as [->|Hne].
  - destruct (run_proc_at pid None w1 p Hp) as (p' & H1 & H2 & H3 & H4 & H5 & H6).
    exists p'. repeat split; try done.
  - exists p. rewrite run_proc_other by done. repeat split; try done.
    intros o rc0 H0. exists rc0. split; [done|apply same_ident_refl].
Qed.

Lemma stop_world_dead s self rc pid :
  wf s → heap (mem s) !! self = Some rc → rc_subprocess rc = Some pid →
  proc_alive (stop_world rc (world s)) pid = false.
Proof.
  intros Hwf Hrc Hsub. unfold stop_world. rewrite Hsub.
  destruct (proc_alive (world s) pid) eqn:Halive; [|done].
  destruct (wf_subprocess s Hwf _ _ _ Hrc Hsub) as (p & Hp & Hself).
  assert (Hst : stage_alive (p_stage p) = true).
  { unfold proc_alive in Halive. by rewrite Hp in Halive. }
  destruct (wf_live s Hwf _ _ Hp Hst) as (rc0 & rc' & H0 & _ & Hc & Hid).
  rewrite Hself, Hrc in H0. injection H0 as <-.
  apply same_ident_fields in Hid as (_ & _ & _ & _ & Hev & _).
  pose proof (wf_event s Hwf _ _ Hrc) as Hlt. simpl.
  set (w1 := set_events (<[rc_monitor_stop_event rc := true]> (events (world s))) (world s)).
  assert (Hdead : proc_alive (run_proc pid None w1) pid = false).
  { eapply run_proc_exits with (p := p); [done | exact Hc |].
    rewrite <- Hev. subst w1. simpl. by apply list_lookup_insert_eq. }
  exact Hdead.
Qed.

(** Well-formedness survives any change that keeps the registry, keeps
    every object up to its [config], and lets processes only advance. *)
Lemma wf_transfer s s' :
  wf s →
  ray_clusters (mem s') = ray_clusters (mem s) →
  length (heap (mem s')) = length (heap (mem s)) →
  (∀ o rc, heap (mem s) !! o = Some rc →
           ∃ rc', heap (mem s') !! o = Some rc' ∧ same_ident rc rc') →
  length (events (world s')) = length (events (world s)) →
  length (procs (world s')) = length (procs (world s)) →
  (∀ i p, procs (world s) !! i = Some p →
     ∃ p', procs (world s') !! i = Some p' ∧ p_self p' = p_self p ∧
           (stage_alive (p_stage p') = true → stage_alive (p_stage p) = true) ∧
           (∀ o rc, heap (p_mem p) !! o = Some rc →
                    ∃ rc', heap (p_mem p') !! o = Some rc' ∧ same_ident rc rc')) →
  wf s'.
Proof.
  intros Hwf Hreg Hlen Hheap Hev Hpl Hprocs.
  assert (Hback : ∀ o rc', heap (mem s') !! o = Some rc' →
            ∃ rc, heap (mem s) !! o = Some rc ∧ same_ident rc rc').
  { intros o rc' H'. destruct (heap (mem s) !! o) as [rc|] eqn:E.
    - destruct (Hheap _ _ E) as (rc'' & H1 & H2). exists rc. split; [done|]. by simplify_eq.
    - apply lookup_ge_None in E. apply lookup_lt_Some in H'. lia. }
  assert (Hpback : ∀ i p', procs (world s') !! i = Some p' →
            ∃ p, procs (world s) !! i = Some p ∧ p_self p' = p_self p ∧
           (stage_alive (p_stage p') = true → stage_alive (p_stage p) = true) ∧
           (∀ o rc, heap (p_mem p) !! o = Some rc →
                    ∃ rc', heap (p_mem p') !! o = Some rc' ∧ same_ident rc rc')).
  { intros i p' H'. destruct (procs (world s) !! i) as [p|] eqn:E.
    - destruct (Hprocs _ _ E) as (p'' & H1 & H2). exists p. split; [done|]. by simplify_eq.
    - apply lookup_ge_None in E. apply lookup_lt_Some in H'. lia. }
  split.
  - intros K o HK. rewrite Hreg in HK. rewrite Hlen. by eapply wf_registry.
  - intros o rc' H'. destruct (Hback _ _ H') as (rc & H1 & H2).
    apply same_ident_fields in H2 as (_ & _ & _ & _ & H2 & _).
    rewrite Hev, <- H2. by eapply wf_event.
  - intros o rc' pid H' Hsub. destruct (Hback _ _ H') as (rc & H1 & H2).
    apply same_ident_fields in H2 as (_ & _ & _ & H2 & _).
    rewrite <- H2 in Hsub.
    destruct (wf_subprocess s Hwf _ _ _ H1 Hsub) as (p & Hp & Hself).
    destruct (Hprocs _ _ Hp) as (p' & Hp' & Hs' & _). exists p'. split; [done|congruence].
  - intros pid p' Hp' Halive.
    destruct (Hpback _ _ Hp') as (p & Hp & Hs & Hal & Hh).
    destruct (wf_live s Hwf _ _ Hp (Hal Halive)) as (rc & rcc & H1 & H2 & H3 & H4).
    destruct (Hheap _ _ H1) as (rc' & H5 & H6).
    destruct (Hh _ _ H3) as (rcc' & H7 & H8).
    exists rc', rcc'. rewrite Hs. repeat split; try done.
    + apply same_ident_fields in H6 as (_ & _ & _ & H6 & _). congruence.
    + eapply same_ident_trans; [apply same_ident_sym; exact H6|].
      eapply same_ident_trans; [exact H4 | exact H8].
Qed.


Lemma snoc_lookup {A} (l : list A) (x : A) : ((l ++ [x])%list) !! length l = Some x.
Proof. by apply list_lookup_middle. Qed.

Lemma RayCluster_init_ok config nm ns s :
  config_names config = Some (nm, ns) →
  RayCluster_init config s = (Ok (length (heap (mem s))), after_init config nm ns s).
Proof.
  unfold config_names. intros H.
  destruct (py_getitem config "cluster_name") as [[| |nm'|]|] eqn:E1; try done.
  destruct (py_getitem config "provider") as [prov|] eqn:E2; try done.
  destruct (py_getitem prov "namespace") as [[| |ns'|]|] eqn:E3; try done.
  injection H as -> ->.
  unfold RayCluster_init, setup_logging, makedirs, Event_new, as_str, after_init, new_cluster.
  unfold_m. rewrite E1, E2. simpl. rewrite E3. simpl.
  rewrite snoc_lookup. simpl.
  unfold set_journal, set_root_logger, set_heap. simpl.
  repeat rewrite <- app_assoc. reflexivity.
Qed.

Lemma RayCluster_init_fail config s :
  config_names config = None →
  ∃ e s', RayCluster_init config s = (Exc e, s') ∧
          mem s' = set_journal (journal (mem s')) (mem s) ∧
          world s' = set_dirs (dirs (world s')) (world s).
Proof.
  unfold config_names. intros H.
  unfold RayCluster_init, setup_logging, makedirs, Event_new, as_str. unfold_m.
  destruct s as [m w]. destruct m, w.
  destruct (py_getitem config "cluster_name") as [v1|] eqn:E1; simpl;
    [|eexists _, _; split; [reflexivity| done]].
  destruct (py_getitem config "provider") as [prov|] eqn:E2; simpl;
    [|eexists _, _; split; [reflexivity| done]].
  destruct (py_getitem prov "namespace") as [v3|] eqn:E3; simpl;
    [|eexists _, _; split; [reflexivity| done]].
  destruct v3; simpl; try (eexists _, _; split; [reflexivity| done]).
  destruct v1; simpl; try (eexists _, _; split; [reflexivity| done]).
  done.
Qed.


Lemma wf_after_stop s self rc :
  wf s → heap (mem s) !! self = Some rc → wf (after_stop rc s).
Proof.
  intros Hwf Hrc. destruct (stop_world_frame rc (world s)) as (_ & _ & E3 & E4).
  apply (wf_transfer s); try done.
  - intros o rc0 H0. exists rc0. split; [done | apply same_ident_refl].
  - intros i p Hp. destruct (stop_world_proc rc _ _ _ Hp) as (p' & H1 & H2 & _ & _ & H3 & H4 & _).
    exists p'. done.
Qed.

Lemma after_stop_dead s self rc pid :
  wf s → heap (mem s) !! self = Some rc → rc_subprocess rc = Some pid →
  proc_alive (world (after_stop rc s)) pid = false.
Proof. apply stop_world_dead. Qed.

Lemma after_stop_heap rc s : heap (mem (after_stop rc s)) = heap (mem s).
Proof. reflexivity. Qed.

Lemma do_in_subprocess_exec s self rc restart_ray :
  wf s → heap (mem s) !! self = Some rc →
  do_in_subprocess self restart_ray s =
    (Ok tt, after_start self rc restart_ray (after_stop rc s)).
Proof.
  intros Hwf Hrc. unfold do_in_subprocess.
  unfold bind at 1. rewrite (clean_up_subprocess_exec _ _ _ Hwf Hrc).
  unfold bind at 1. unfold deref. rewrite after_stop_heap, Hrc.
  unfold Process_start, after_start. unfold_m. simpl.
  unfold set_journal, set_heap. simpl. reflexivity.
Qed.

Lemma alter_subprocess_lookup (h : list RayCluster) self o pid rc' :
  alter (set_rc_subprocess (Some pid)) self h !! o = Some rc' →
  ∃ rc, h !! o = Some rc ∧
        ((o = self ∧ rc' = set_rc_subprocess (Some pid) rc) ∨ (o ≠ self ∧ rc' = rc)).
Proof.
  destruct (decide (self = o)) as [->|Hne].
  - rewrite list_lookup_alter_eq. intros H. apply fmap_Some in H as (rc & H1 & H2).
    exists rc. split; [done|]. left. done.
  - rewrite list_lookup_alter_ne by done. intros H. exists rc'. split; [done|]. right. done.
Qed.

(** Starting a process keeps the state well-formed when the process the
    object tracked before is no longer alive. *)
Lemma wf_after_start s self rc restart_ray :
  wf s → heap (mem s) !! self = Some rc →
  (∀ pid, rc_subprocess rc = Some pid → proc_alive (world s) pid = false) →
  wf (after_start self rc restart_ray s).
Proof.
  intros Hwf Hrc Hdead. unfold after_start. split; simpl.
  - intros K o HK. rewrite length_alter. by eapply wf_registry.
  - intros o rc' H'. apply alter_subprocess_lookup in H' as (rc0 & H0 & [[-> ->]|[_ ->]]);
      simpl; by eapply wf_event.
  - intros o rc' pid H' Hsub.
    apply alter_subprocess_lookup in H' as (rc0 & H0 & [[-> ->]|[Hne ->]]); simpl in *.
    + injection Hsub as <-. eexists. rewrite snoc_lookup. done.
    + destruct (wf_subprocess s Hwf _ _ _ H0 Hsub) as (p & Hp & Hs).
      exists p. split; [|done]. rewrite lookup_app_l; [done|]. by eapply lookup_lt_Some.
  - intros pid p Hp Halive.
    destruct (decide (pid = length (procs (world s)))) as [->|Hne].
    + rewrite snoc_lookup in Hp. injection Hp as <-. simpl.
      rewrite list_lookup_alter_eq, Hrc. simpl.
      eexists _, _. repeat split; try done.
    + assert (Hlt : pid < length (procs (world s))).
      { apply lookup_lt_Some in Hp. rewrite length_app in Hp. simpl in Hp. lia. }
      rewrite lookup_app_l in Hp by done.
      destruct (wf_live s Hwf _ _ Hp Halive) as (rc0 & rcc & H1 & H2 & H3 & H4).
      destruct (decide (p_self p = self)) as [Hs|Hs].
      * rewrite Hs, Hrc in H1. injection H1 as <-.
        specialize (Hdead _ H2). unfold proc_alive in Hdead. rewrite Hp in Hdead. congruence.
      * exists rc0, rcc. rewrite list_lookup_alter_ne by done. done.
Qed.


Lemma clean_up_exec s self rc :
  wf s → heap (mem s) !! self = Some rc →
  clean_up self s = (Ok tt, after_clean_up rc s).
Proof.
  intros Hwf Hrc. unfold clean_up.
  unfold bind at 1. rewrite (clean_up_subprocess_exec _ _ _ Hwf Hrc).
  unfold after_clean_up.
  assert (H1 : heap (mem (after_stop rc s)) !! self = Some rc) by done.
  generalize dependent (after_stop rc s). intros s1 H1.
  unfold clean_up_logging, delete_config, os_remove. unfold_m. rewrite H1. simpl. rewrite H1.
  simpl. destruct (files (world s1) !! rc_config_path rc) eqn:E; simpl.
  - unfold set_journal, set_root_logger. simpl. repeat rewrite <- app_assoc. reflexivity.
  - rewrite delete_id by done. unfold set_journal, set_root_logger, set_files. simpl.
    destruct (world s1). reflexivity.
Qed.

(** *** Well-formedness is kept by every step of the handlers *)

Lemma wf_mem s m' :
  wf s → ray_clusters m' = ray_clusters (mem s) → heap m' = heap (mem s) →
  wf {| mem := m'; world := world s |}.
Proof.
  intros Hwf H1 H2. apply (wf_transfer s); simpl; try done.
  - by rewrite H2.
  - intros o rc H. rewrite H2. exists rc. split; [done|apply same_ident_refl].
  - intros i p Hp. exists p. repeat split; try done.
    intros o rc H. exists rc. split; [done|apply same_ident_refl].
Qed.

Lemma wf_q_put item s : wf s → wf (snd (q_put item s)).
Proof. intros Hwf. by apply (wf_mem s). Qed.

Lemma wf_files s f m' :
  wf s → ray_clusters m' = ray_clusters (mem s) → heap m' = heap (mem s) →
  wf {| mem := m'; world := set_files f (world s) |}.
Proof.
  intros Hwf H1 H2. apply (wf_transfer s); simpl; try done.
  - by rewrite H2.
  - intros o rc H. rewrite H2. exists rc. split; [done|apply same_ident_refl].
  - intros i p Hp. exists p. repeat split; try done.
    intros o rc H. exists rc. split; [done|apply same_ident_refl].
Qed.

Lemma wf_dirs s d m' :
  wf s → ray_clusters m' = ray_clusters (mem s) → heap m' = heap (mem s) →
  wf {| mem := m'; world := set_dirs d (world s) |}.
Proof.
  intros Hwf H1 H2. apply (wf_transfer s); simpl; try done.
  - by rewrite H2.
  - intros o rc H. rewrite H2. exists rc. split; [done|apply same_ident_refl].
  - intros i p Hp. exists p. repeat split; try done.
    intros o rc H. exists rc. split; [done|apply same_ident_refl].
Qed.

Lemma wf_set_config s self config : wf s → wf (snd (set_config self config s)).
Proof.
  intros Hwf. apply (wf_transfer s); simpl; try done.
  - apply length_alter.
  - intros o rc H. by apply alter_config_lookup.
  - intros i p Hp. exists p. repeat split; try done.
    intros o rc H. exists rc. split; [done|apply same_ident_refl].
Qed.

Lemma wf_after_clean_up s self rc :
  wf s → heap (mem s) !! self = Some rc → wf (after_clean_up rc s).
Proof.
  intros Hwf Hrc. pose proof (wf_after_stop _ _ _ Hwf Hrc) as H1.
  unfold after_clean_up. by apply (wf_files (after_stop rc s)).
Qed.

Lemma wf_after_init config nm ns s : wf s → wf (after_init config nm ns s).
Proof.
  intros Hwf. unfold after_init. split; simpl.
  - intros K o HK. rewrite length_app. simpl. pose proof (wf_registry s Hwf _ _ HK). lia.
  - intros o rc H. rewrite length_app. simpl.
    destruct (decide (o = length (heap (mem s)))) as [->|Hne].
    + rewrite snoc_lookup in H. injection H as <-. simpl. lia.
    + rewrite lookup_app_l in H.
      * pose proof (wf_event s Hwf _ _ H). lia.
      * apply lookup_lt_Some in H. rewrite length_app in H. simpl in H. lia.
  - intros o rc pid H Hsub.
    destruct (decide (o = length (heap (mem s)))) as [->|Hne].
    + rewrite snoc_lookup in H. injection H as <-. done.
    + rewrite lookup_app_l in H.
      * by eapply wf_subprocess.
      * apply lookup_lt_Some in H. rewrite length_app in H. simpl in H. lia.
  - intros pid p Hp Halive.
    destruct (wf_live s Hwf _ _ Hp Halive) as (rc & rcc & H1 & H2 & H3 & H4).
    exists rc, rcc. repeat split; try done.
    rewrite lookup_app_l; [done|]. by eapply lookup_lt_Some.
Qed.

Lemma wf_insert s K o :
  wf s → o < length (heap (mem s)) →
  wf (upd_mem (fun m => set_ray_clusters (<[K := o]> (ray_clusters m)) m) s).
Proof.
  intros Hwf Ho. split; simpl; try apply Hwf.
  intros K' o' H. apply lookup_insert_Some in H as [[_ <-]|[_ H]]; [done|].
  by eapply wf_registry.
Qed.

Lemma wf_delete s K :
  wf s → wf (upd_mem (fun m => set_ray_clusters (delete K (ray_clusters m)) m) s).
Proof.
  intros Hwf. split; simpl; try apply Hwf.
  intros K' o' H. apply lookup_delete_Some in H as [_ H]. by eapply wf_registry.
Qed.

Lemma wf_run_proc pid fault s : wf s → wf (upd_world (run_proc pid fault) s).
Proof.
  intros Hwf. destruct (run_proc_frame pid fault (world s)) as (E1 & E2 & E3 & E4).
  apply (wf_transfer s); simpl; try done; try congruence.
  - intros o rc H. exists rc. split; [done|apply same_ident_refl].
  - intros i p Hp. destruct (decide (i = pid)) as [->|Hne].
    + destruct (run_proc_at pid fault _ _ Hp) as (p' & H1 & H2 & _ & _ & H3 & H4).
      exists p'. done.
    + exists p. rewrite run_proc_other by done. repeat split; try done.
      intros o rc H. exists rc. split; [done|apply same_ident_refl].
Qed.


Lemma wf_register s K o : wf s → o < length (heap (mem s)) → wf (register K o s).
Proof. apply wf_insert. Qed.

Lemma wf_unregister s K : wf s → wf (unregister K s).
Proof. apply wf_delete. Qed.

Lemma wf_put_updating name namespace s : wf s → wf (put_updating name namespace s).
Proof. apply wf_q_put. Qed.

Lemma wf_put_running name namespace s : wf s → wf (put_running name namespace s).
Proof. apply wf_q_put. Qed.

(** *** What the handlers do *)

Lemma create_fn_raises_config body name namespace s e :
  cr_to_config body = Raises e →
  create_fn body name namespace s = (Exc e, s).
Proof. intros H. unfold create_fn. unfold_m. by rewrite H. Qed.

Lemma create_fn_raises_check body name namespace s config e :
  cr_to_config body = Returns config →
  check_redis_password_not_specified config (name, namespace) = Raises e →
  create_fn body name namespace s = (Exc e, s).
Proof.
  intros H1 H2. unfold create_fn. run_call H1.
  unfold bind at 1. unfold call at 1. by rewrite H2.
Qed.

Lemma create_fn_raises_init body name namespace s config :
  cr_to_config body = Returns config →
  check_redis_password_not_specified config (name, namespace) = Returns tt →
  config_names config = None →
  ∃ e s', create_fn body name namespace s = (Exc e, s') ∧
          mem s' = set_journal (journal (mem s')) (mem s) ∧
          world s' = set_dirs (dirs (world s')) (world s).
Proof.
  intros H1 H2 H3. destruct (RayCluster_init_fail config s H3) as (e & s' & E & Hm & Hw).
  exists e, s'. split; [|done].
  unfold create_fn. run_call H1. run_call H2. by run_step E.
Qed.

Lemma create_fn_exec body name namespace s config nm ns :
  wf s →
  cr_to_config body = Returns config →
  check_redis_password_not_specified config (name, namespace) = Returns tt →
  config_names config = Some (nm, ns) →
  create_fn body name namespace s = (Ok tt, after_create config nm ns name namespace s).
Proof.
  intros Hwf H1 H2 H3.
  unfold create_fn. run_call H1. run_call H2.
  run_step (RayCluster_init_ok _ _ _ s H3).
  unfold bind at 1. unfold modify at 1. cbn beta iota zeta.
  unfold after_create.
  set (o := length (heap (mem s))).
  set (rc := new_cluster config nm ns (length (events (world s))) o).
  fold (register (name, namespace) o (after_init config nm ns s)).
  set (s1 := register (name, namespace) o (after_init config nm ns s)).
  assert (Hwf1 : wf s1).
  { apply wf_register; [by apply wf_after_init|]. simpl. rewrite length_app. simpl. lia. }
  assert (Hq : q_put (Some (name, namespace, STATUS_UPDATING)) s1
               = (Ok tt, put_updating name namespace s1)) by done.
  run_step Hq. unfold create_or_update.
  assert (Hrc : heap (mem (put_updating name namespace s1)) !! o = Some rc).
  { simpl. apply snoc_lookup. }
  run_step (do_in_subprocess_exec _ _ _ false (wf_put_updating _ _ _ Hwf1) Hrc).
  reflexivity.
Qed.

Lemma update_fn_raises_config body old new name namespace s e :
  cr_to_config body = Raises e →
  update_fn body old new name namespace s = (Exc e, s).
Proof. intros H. unfold update_fn. unfold_m. by rewrite H. Qed.

Lemma update_fn_raises_verdict body old new name namespace s config e :
  cr_to_config body = Returns config →
  update_verdict old new = Raises e →
  update_fn body old new name namespace s = (Exc e, s).
Proof.
  intros H1 H2. unfold update_fn. run_call H1. unfold update_verdict in H2.
  repeat (verdict_step H2; [|congruence]). discriminate.
Qed.

Lemma update_fn_idle body old new name namespace s config :
  cr_to_config body = Returns config →
  update_verdict old new = Returns (false, false) →
  update_fn body old new name namespace s = (Ok tt, s).
Proof.
  intros H1 H2. unfold update_fn. run_call H1. unfold update_verdict in H2.
  repeat (verdict_step H2; [|discriminate]). by injection H2 as -> ->.
Qed.

Lemma update_fn_known body old new name namespace s config sc rr o rc :
  wf s →
  cr_to_config body = Returns config →
  update_verdict old new = Returns (sc, rr) →
  sc || rr = true →
  ray_clusters (mem s) !! (name, namespace) = Some o →
  heap (mem s) !! o = Some rc →
  update_fn body old new name namespace s =
    (Ok tt, after_update o rc config rr name namespace s).
Proof.
  intros Hwf H1 H2 H3 H4 H5.
  assert (E : update_fn body old new name namespace s =
    (q_put (Some (name, namespace, STATUS_UPDATING)) ;;
     clean_up_subprocess o ;;
     set_config o config ;;
     create_or_update o rr ;;
     q_put (Some (name, namespace, STATUS_RUNNING)))%py s).
  { unfold update_fn. run_call H1. unfold update_verdict in H2.
    repeat (verdict_step H2; [|discriminate]).
    injection H2 as -> ->. rewrite H3.
    unfold bind at 1. unfold gets at 1. cbn beta iota zeta. rewrite H4.
    unfold bind at 1. unfold ret at 1. cbn beta iota zeta.
    reflexivity. }
  rewrite E. clear E. unfold after_update.
  assert (Hq : q_put (Some (name, namespace, STATUS_UPDATING)) s
               = (Ok tt, put_updating name namespace s)) by done.
  run_step Hq. set (s1 := put_updating name namespace s).
  assert (Hwf1 : wf s1) by by apply wf_put_updating.
  assert (Hrc1 : heap (mem s1) !! o = Some rc) by done.
  run_step (clean_up_subprocess_exec _ _ _ Hwf1 Hrc1).
  set (s2 := after_stop rc s1).
  assert (Hwf2 : wf s2) by by eapply wf_after_stop.
  assert (Hc : set_config o config s2 = (Ok tt, snd (set_config o config s2))) by done.
  run_step Hc. set (s3 := snd (set_config o config s2)).
  assert (Hwf3 : wf s3) by by apply wf_set_config.
  assert (Hrc3 : heap (mem s3) !! o = Some (set_rc_config config rc)).
  { subst s3 s2 s1. simpl. by rewrite list_lookup_alter_eq, H5. }
  unfold create_or_update.
  run_step (do_in_subprocess_exec _ _ _ rr Hwf3 Hrc3). reflexivity.
Qed.


Lemma update_fn_new body old new name namespace s config sc rr nm ns :
  wf s →
  cr_to_config body = Returns config →
  update_verdict old new = Returns (sc, rr) →
  sc || rr = true →
  ray_clusters (mem s) !! (name, namespace) = None →
  config_names config = Some (nm, ns) →
  update_fn body old new name namespace s =
    (Ok tt,
     after_update (length (heap (mem s)))
       (new_cluster config nm ns (length (events (world s))) (length (heap (mem s))))
       config rr name namespace
       (register (name, namespace) (length (heap (mem s))) (after_init config nm ns s))).
Proof.
  intros Hwf H1 H2 H3 H4 H5.
  set (o := length (heap (mem s))).
  set (rc := new_cluster config nm ns (length (events (world s))) o).
  set (s0 := register (name, namespace) o (after_init config nm ns s)).
  assert (Hwf0 : wf s0).
  { apply wf_register; [by apply wf_after_init|]. simpl. rewrite length_app. simpl. lia. }
  assert (Hrc0 : heap (mem s0) !! o = Some rc) by apply snoc_lookup.
  assert (E : update_fn body old new name namespace s =
    (q_put (Some (name, namespace, STATUS_UPDATING)) ;;
     clean_up_subprocess o ;;
     set_config o config ;;
     create_or_update o rr ;;
     q_put (Some (name, namespace, STATUS_RUNNING)))%py s0).
  { unfold update_fn. run_call H1. unfold update_verdict in H2.
    repeat (verdict_step H2; [|discriminate]).
    injection H2 as -> ->. rewrite H3.
    unfold bind at 1. unfold gets at 1. cbn beta iota zeta. rewrite H4.
    unfold bind at 1. run_step (RayCluster_init_ok _ _ _ s H5).
    unfold bind at 1. unfold modify at 1. unfold ret at 1. cbn beta iota zeta.
    reflexivity. }
  rewrite E. clear E. unfold after_update.
  assert (Hq : q_put (Some (name, namespace, STATUS_UPDATING)) s0
               = (Ok tt, put_updating name namespace s0)) by done.
  run_step Hq. set (s1 := put_updating name namespace s0).
  assert (Hwf1 : wf s1) by by apply wf_put_updating.
  assert (Hrc1 : heap (mem s1) !! o = Some rc) by done.
  run_step (clean_up_subprocess_exec _ _ _ Hwf1 Hrc1).
  set (s2 := after_stop rc s1).
  assert (Hwf2 : wf s2) by by eapply wf_after_stop.
  assert (Hc : set_config o config s2 = (Ok tt, snd (set_config o config s2))) by done.
  run_step Hc. set (s3 := snd (set_config o config s2)).
  assert (Hwf3 : wf s3) by by apply wf_set_config.
  assert (Hrc3 : heap (mem s3) !! o = Some (set_rc_config config rc)).
  { subst s3 s2 s1. simpl. rewrite list_lookup_alter_eq. simpl in Hrc0. by rewrite Hrc0. }
  unfold create_or_update.
  run_step (do_in_subprocess_exec _ _ _ rr Hwf3 Hrc3). reflexivity.
Qed.

Lemma update_fn_new_fail body old new name namespace s config sc rr :
  cr_to_config body = Returns config →
  update_verdict old new = Returns (sc, rr) →
  sc || rr = true →
  ray_clusters (mem s) !! (name, namespace) = None →
  config_names config = None →
  ∃ e s', update_fn body old new name namespace s = (Exc e, s') ∧
          mem s' = set_journal (journal (mem s')) (mem s) ∧
          world s' = set_dirs (dirs (world s')) (world s).
Proof.
  intros H1 H2 H3 H4 H5.
  destruct (RayCluster_init_fail config s H5) as (e & s' & E & Hm & Hw).
  exists e, s'. split; [|done].
  unfold update_fn. run_call H1. unfold update_verdict in H2.
  repeat (verdict_step H2; [|discriminate]).
  injection H2 as -> ->. rewrite H3.
  unfold bind at 1. unfold gets at 1. cbn beta iota zeta. rewrite H4.
  unfold bind at 1. by run_step E.
Qed.

Lemma delete_fn_absent name namespace s :
  ray_clusters (mem s) !! (name, namespace) = None →
  delete_fn name namespace s = (Ok tt, s).
Proof.
  intros H. unfold delete_fn. unfold bind, gets. by rewrite H.
Qed.

Lemma delete_fn_exec name namespace s o rc :
  wf s →
  ray_clusters (mem s) !! (name, namespace) = Some o →
  heap (mem s) !! o = Some rc →
  delete_fn name namespace s =
    (Ok tt, unregister (name, namespace) (after_clean_up rc s)).
Proof.
  intros Hwf H1 H2. unfold delete_fn. unfold bind at 1. unfold gets at 1.
  cbn beta iota zeta. rewrite H1.
  by run_step (clean_up_exec _ _ _ Hwf H2).
Qed.

Lemma wf_after_update s o rc config rr name namespace :
  wf s → heap (mem s) !! o = Some rc →
  wf (after_update o rc config rr name namespace s).
Proof.
  intros Hwf Hrc. unfold after_update.
  set (s1 := put_updating name namespace s).
  assert (Hwf1 : wf s1) by by apply wf_put_updating.
  assert (Hrc1 : heap (mem s1) !! o = Some rc) by done.
  set (s2 := after_stop rc s1).
  assert (Hwf2 : wf s2) by by eapply wf_after_stop.
  set (s3 := snd (set_config o config s2)).
  assert (Hwf3 : wf s3) by by apply wf_set_config.
  assert (Hrc3 : heap (mem s3) !! o = Some (set_rc_config config rc)).
  { subst s3 s2 s1. simpl. by rewrite list_lookup_alter_eq, Hrc. }
  apply wf_put_running. apply wf_after_start.
  - by eapply wf_after_stop.
  - done.
  - intros pid Hsub. by eapply after_stop_dead.
Qed.

Lemma wf_after_create s config nm ns name namespace :
  wf s → wf (after_create config nm ns name namespace s).
Proof.
  intros Hwf. unfold after_create.
  set (o := length (heap (mem s))).
  set (rc := new_cluster config nm ns (length (events (world s))) o).
  set (s1 := register (name, namespace) o (after_init config nm ns s)).
  assert (Hwf1 : wf s1).
  { apply wf_register; [by apply wf_after_init|]. simpl. rewrite length_app. simpl. lia. }
  set (s2 := put_updating name namespace s1).
  assert (Hwf2 : wf s2) by by apply wf_put_updating.
  assert (Hrc2 : heap (mem s2) !! o = Some rc) by apply snoc_lookup.
  apply wf_put_running. apply wf_after_start.
  - by eapply wf_after_stop.
  - done.
  - intros pid Hsub. by eapply after_stop_dead.
Qed.


(** *** The status worker touches neither supervisors nor processes *)

Lemma worker_frame_refl s : worker_frame s s.
Proof. by repeat split. Qed.

Lemma worker_frame_trans s1 s2 s3 :
  worker_frame s1 s2 → worker_frame s2 s3 → worker_frame s1 s3.
Proof.
  unfold worker_frame. intros (?&?&?&?&?&?&?) (?&?&?&?&?&?&?).
  repeat split; congruence.
Qed.

Lemma report_frame item s : worker_frame s (snd (report item s)).
Proof.
  destruct item as [[n ns] ph]. unfold report. unfold_m.
  destruct (set_status n ns ph); simpl; by repeat split.
Qed.

Lemma loop_frame q s : worker_frame s (snd (status_handling_loop_from q s)).
Proof.
  revert s. induction q as [|item rest IH]; intros s; simpl.
  - apply worker_frame_refl.
  - destruct item as [it|]; unfold bind at 1; unfold modify at 1; cbn beta iota zeta.
    + unfold bind at 1.
      destruct (report it (upd_mem (set_cluster_status_q rest) s)) as [r s1] eqn:E.
      pose proof (report_frame it (upd_mem (set_cluster_status_q rest) s)) as F.
      rewrite E in F. simpl in F.
      assert (F0 : worker_frame s s1).
      { eapply worker_frame_trans; [|exact F]. by repeat split. }
      destruct r; simpl; try done.
      eapply worker_frame_trans; [exact F0 | apply IH].
    + by repeat split.
Qed.

Lemma thread_step_frame s : worker_frame s (snd (Thread_step s)).
Proof.
  unfold Thread_step. destruct (status_handler (mem s)) as [t|]; [|apply worker_frame_refl].
  destruct (t_state t); [|apply worker_frame_refl].
  destruct (thread_target (t_args t) s) as [r s1] eqn:E.
  assert (F : worker_frame s s1).
  { unfold thread_target in E. destruct (t_args t) as [|q [|]]; simpl in E;
      try (injection E as <- <-; apply worker_frame_refl).
    unfold status_handling_loop in E.
    pose proof (loop_frame (cluster_status_q (mem s)) s) as F. by rewrite E in F. }
  simpl. destruct F as (?&?&?&?&?&?&?). by repeat split.
Qed.

Lemma wf_worker_frame s s' : wf s → worker_frame s s' → wf s'.
Proof.
  intros Hwf (H1 & H2 & H3 & H4 & H5 & H6 & H7).
  apply (wf_transfer s); try done.
  - by rewrite H2.
  - intros o rc H. rewrite H2. exists rc. split; [done|apply same_ident_refl].
  - by rewrite H5.
  - by rewrite H4.
  - intros i p Hp. rewrite H4. exists p. repeat split; try done.
    intros o rc H. exists rc. split; [done|apply same_ident_refl].
Qed.

Lemma start_background_worker_frame s :
  worker_frame s (snd (start_background_worker s)).
Proof.
  unfold start_background_worker. unfold bind at 1. unfold modify at 1. cbn beta iota zeta.
  eapply worker_frame_trans; [|apply thread_step_frame]. by repeat split.
Qed.

Lemma stop_background_worker_frame s :
  worker_frame s (snd (stop_background_worker s)).
Proof.
  unfold stop_background_worker.
  unfold bind at 1.
  assert (Hq : q_put None s = (Ok tt, snd (q_put None s))) by done.
  rewrite Hq. cbn beta iota zeta.
  assert (F0 : worker_frame s (snd (q_put None s))) by by repeat split.
  eapply worker_frame_trans; [exact F0|].
  generalize (snd (q_put None s)). intros s1.
  unfold Thread_join. unfold bind at 1. unfold gets at 1. cbn beta iota zeta.
  destruct (status_handler (mem s1)) as [t|] eqn:Et; [|apply worker_frame_refl].
  unfold bind at 1.
  pose proof (thread_step_frame s1) as F.
  destruct (Thread_step s1) as [r s2] eqn:E. simpl in F.
  destruct r; simpl; try done.
  unfold bind, gets, ret, block.
  destruct (status_handler (mem s2)) as [[targs [|te]]|]; simpl; done.
Qed.

(** *** Well-formedness of everything reachable *)

Lemma wf_init : wf init.
Proof.
  split; simpl.
  - intros K o H. by rewrite lookup_empty in H.
  - intros o rc H. done.
  - intros o rc pid H. done.
  - intros pid p H. done.
Qed.

Lemma wf_create_fn body name namespace s :
  wf s → wf (snd (create_fn body name namespace s)).
Proof.
  intros Hwf.
  destruct (cr_to_config body) as [config|e] eqn:E1.
  2: { by rewrite (create_fn_raises_config _ _ _ _ _ E1). }
  destruct (check_redis_password_not_specified config (name, namespace)) as [[]|e] eqn:E2.
  2: { by rewrite (create_fn_raises_check _ _ _ _ _ _ E1 E2). }
  destruct (config_names config) as [[nm ns]|] eqn:E3.
  - rewrite (create_fn_exec _ _ _ _ _ _ _ Hwf E1 E2 E3). simpl. by apply wf_after_create.
  - destruct (create_fn_raises_init _ _ _ s _ E1 E2 E3) as (e & s' & E & Hm & Hw).
    rewrite E. simpl. destruct s' as [m' w']. simpl in *. rewrite Hm, Hw.
    by apply wf_dirs.
Qed.

Lemma wf_update_fn body old new name namespace s :
  wf s → wf (snd (update_fn body old new name namespace s)).
Proof.
  intros Hwf.
  destruct (cr_to_config body) as [config|e] eqn:E1.
  2: { by rewrite (update_fn_raises_config _ _ _ _ _ _ _ E1). }
  destruct (update_verdict old new) as [[sc rr]|e] eqn:E2.
  2: { by rewrite (update_fn_raises_verdict _ _ _ _ _ _ _ _ E1 E2). }
  destruct (sc || rr) eqn:E3.
  2: { apply orb_false_elim in E3 as [-> ->].
       by rewrite (update_fn_idle _ _ _ _ _ _ _ E1 E2). }
  destruct (ray_clusters (mem s) !! (name, namespace)) as [o|] eqn:E4.
  - pose proof (wf_registry s Hwf _ _ E4) as Hlt.
    apply lookup_lt_is_Some_2 in Hlt as [rc Hrc].
    rewrite (update_fn_known _ _ _ _ _ _ _ _ _ _ _ Hwf E1 E2 E3 E4 Hrc). simpl.
    by apply wf_after_update.
  - destruct (config_names config) as [[nm ns]|] eqn:E5.
    + rewrite (update_fn_new _ _ _ _ _ _ _ _ _ _ _ Hwf E1 E2 E3 E4 E5). simpl.
      apply wf_after_update.
      * apply wf_register; [by apply wf_after_init|]. simpl. rewrite length_app. simpl. lia.
      * apply snoc_lookup.
    + destruct (update_fn_new_fail _ _ _ _ _ s _ _ _ E1 E2 E3 E4 E5) as (e & s' & E & Hm & Hw).
      rewrite E. simpl. destruct s' as [m' w']. simpl in *. rewrite Hm, Hw.
      by apply wf_dirs.
Qed.

Lemma wf_delete_fn name namespace s :
  wf s → wf (snd (delete_fn name namespace s)).
Proof.
  intros Hwf.
  destruct (ray_clusters (mem s) !! (name, namespace)) as [o|] eqn:E4.
  - pose proof (wf_registry s Hwf _ _ E4) as Hlt.
    apply lookup_lt_is_Some_2 in Hlt as [rc Hrc].
    rewrite (delete_fn_exec _ _ _ _ _ Hwf E4 Hrc). simpl.
    apply wf_unregister. by eapply wf_after_clean_up.
  - by rewrite (delete_fn_absent _ _ _ E4).
Qed.

Lemma wf_handle e s : wf s → wf (handle e s).
Proof.
  intros Hwf. destruct e; simpl.
  - eapply wf_worker_frame; [done | apply start_background_worker_frame].
  - eapply wf_worker_frame; [done | apply stop_background_worker_frame].
  - by apply wf_create_fn.
  - by apply wf_update_fn.
  - by apply wf_delete_fn.
  - by apply wf_run_proc.
  - eapply wf_worker_frame; [done | apply thread_step_frame].
Qed.

Lemma wf_run evs s : wf s → wf (run evs s).
Proof.
  revert s. induction evs as [|e evs IH]; intros s Hwf; [done|].
  simpl. apply IH. by apply wf_handle.
Qed.


(** *** The state an acting update leaves *)

Lemma after_stop_idle rc s :
  (∀ pid, rc_subprocess rc = Some pid → proc_alive (world s) pid = false) →
  after_stop rc s = s.
Proof.
  intros H. unfold after_stop, stop_effects, stop_world.
  destruct (rc_subprocess rc) as [pid|].
  - rewrite (H pid eq_refl). by rewrite mem_journal_nil, state_eta.
  - by rewrite mem_journal_nil, state_eta.
Qed.

Lemma after_update_eq s o rc config rr name namespace :
  wf s → heap (mem s) !! o = Some rc →
  after_update o rc config rr name namespace s =
    put_running name namespace
      (after_start o (set_rc_config config rc) rr
         (snd (set_config o config (after_stop rc (put_updating name namespace s))))).
Proof.
  intros Hwf Hrc. unfold after_update. do 2 f_equal.
  apply after_stop_idle. intros pid Hsub.
  apply (after_stop_dead (put_updating name namespace s) o rc pid); try done.
  by apply wf_put_updating.
Qed.

Lemma after_update_facts s o rc config rr name namespace :
  wf s → heap (mem s) !! o = Some rc →
  let s' := after_update o rc config rr name namespace s in
  let pid := length (procs (world s)) in
  let rc' := set_rc_subprocess (Some pid) (set_rc_config config rc) in
  ray_clusters (mem s') = ray_clusters (mem s) ∧
  cluster_status_q (mem s') =
    (cluster_status_q (mem s) ++
      [Some (name, namespace, STATUS_UPDATING); Some (name, namespace, STATUS_RUNNING)])%list ∧
  journal (mem s') =
    (journal (mem s) ++ [EPut (Some (name, namespace, STATUS_UPDATING))] ++
      stop_effects rc (world s) ++
      [EProcStart pid (rc_subprocess_name rc) rr;
       EPut (Some (name, namespace, STATUS_RUNNING))])%list ∧
  (∀ pid0, rc_subprocess rc = Some pid0 → proc_alive (world s') pid0 = false) ∧
  heap (mem s') !! o = Some rc' ∧
  (∃ p, procs (world s') !! pid = Some p ∧ p_self p = o ∧ p_restart_ray p = rr ∧
        p_stage p = Started ∧ heap (p_mem p) !! o = Some rc') ∧
  files (world s') = files (stop_world rc (world s)) ∧
  length (procs (world s')) = S (length (procs (world s))).
Proof.
  intros Hwf Hrc. cbn zeta. rewrite (after_update_eq _ _ _ _ _ _ _ Hwf Hrc).
  destruct (stop_world_frame rc (world s)) as (_ & _ & _ & Hlen).
  assert (Hh : alter (set_rc_subprocess (Some (length (procs (world s)))))
                 o (alter (set_rc_config config) o (heap (mem s))) !! o
               = Some (set_rc_subprocess (Some (length (procs (world s))))
                         (set_rc_config config rc))).
  { by rewrite !list_lookup_alter_eq, Hrc. }
  unfold put_running, after_start, put_updating. simpl. rewrite Hlen.
  repeat split.
  - by rewrite <- !app_assoc.
  - by rewrite <- !app_assoc.
  - intros pid0 Hsub.
    pose proof (stop_world_dead s o rc pid0 Hwf Hrc Hsub) as Hd.
    destruct (wf_subprocess s Hwf _ _ _ Hrc Hsub) as (p & Hp & _).
    apply lookup_lt_Some in Hp. unfold proc_alive in *. simpl.
    rewrite lookup_app_l by lia. done.
  - done.
  - eexists. rewrite <- Hlen, snoc_lookup. simpl. rewrite Hlen. by repeat split.
  - rewrite length_app. simpl. lia.
Qed.

(** *** What the supervised process leaves in its own memory *)

(** The process never touches its copy of the registry, and puts on the
    queue it holds exactly when its work raised. *)
Lemma child_queue self restart st fault s r s' rc :
  heap (mem s) !! self = Some rc →
  _create_or_update self restart st fault s = (r, s') →
  ray_clusters (mem s') = ray_clusters (mem s) ∧
  cluster_status_q (mem s') =
    match r with
    | Exc _ => (cluster_status_q (mem s) ++
                 [Some (rc_name rc, rc_namespace rc, STATUS_AUTOSCALING_EXCEPTION)])%list
    | _ => cluster_status_q (mem s)
    end.
Proof.
  unfold_child. unfold_m. intros Hrc H.
  destruct s as [m w]. simpl in *.
  destruct st; simpl in H; rewrite ?Hrc in H; simpl in H;
    repeat (step_match; simpl in * ); try discriminate;
    repeat match goal with
           | H : alter _ _ _ !! _ = _ |- _ => rewrite list_lookup_alter_eq in H
           end;
    repeat match goal with
           | H : _ <$> _ = Some _ |- _ => apply fmap_Some in H as (? & ? & ?)
           | H : _ <$> _ = None |- _ => apply fmap_None in H
           end;
    simplify_eq/=; done.
Qed.

(** A process that starts writes the configuration it was forked with,
    and only then provisions, from the file it has just written. *)
Lemma child_journal self restart fault s r s' rc :
  heap (mem s) !! self = Some rc →
  _create_or_update self restart Started fault s = (r, s') →
  files (world s') !! rc_config_path rc ≠ None ∧
  ∃ rest, journal (mem s') =
    (journal (mem s) ++
       EWrite (rc_config_path rc) (rc_config rc) ::
       EProvision (rc_config_path rc) (Some (rc_config rc)) (negb restart) :: rest)%list.
Proof.
  unfold_child. unfold_m. intros Hrc H.
  destruct s as [m w]. simpl in *.
  rewrite ?Hrc in H; simpl in H. rewrite ?Hrc in H; simpl in H.
  rewrite lookup_insert_eq in H.
  repeat (step_match; simpl in * ); try discriminate;
    repeat match goal with
           | H : alter _ _ _ !! _ = _ |- _ => rewrite list_lookup_alter_eq in H
           end;
    repeat match goal with
           | H : _ <$> _ = Some _ |- _ => apply fmap_Some in H as (? & ? & ?)
           | H : _ <$> _ = None |- _ => apply fmap_None in H
           end;
    simplify_eq/=;
    (split; [by rewrite ?lookup_insert_eq|]);
    rewrite <- ?app_assoc; simpl; by eexists.
Qed.

(** *** The state a create leaves, and the process it has launched *)

Lemma after_create_facts config nm ns name namespace s :
  let s' := after_create config nm ns name namespace s in
  let o := length (heap (mem s)) in
  let pid := length (procs (world s)) in
  let rc' := set_rc_subprocess (Some pid)
               (new_cluster config nm ns (length (events (world s))) o) in
  ray_clusters (mem s') = <[(name, namespace) := o]> (ray_clusters (mem s)) ∧
  cluster_status_q (mem s') =
    (cluster_status_q (mem s) ++
      [Some (name, namespace, STATUS_UPDATING); Some (name, namespace, STATUS_RUNNING)])%list ∧
  journal (mem s') =
    (journal (mem s) ++
      [EMakedirs (namespace_dir ns); EAddHandler o;
       EPut (Some (name, namespace, STATUS_UPDATING));
       EProcStart pid (nm ++ "," ++ ns) false;
       EPut (Some (name, namespace, STATUS_RUNNING))])%list ∧
  heap (mem s') !! o = Some rc' ∧
  files (world s') = files (world s) ∧
  ∃ p, procs (world s') = (procs (world s) ++ [p])%list ∧
       p_self p = o ∧ p_restart_ray p = false ∧ p_stage p = Started ∧
       heap (p_mem p) !! o = Some rc' ∧
       cluster_status_q (p_mem p) =
         (cluster_status_q (mem s) ++ [Some (name, namespace, STATUS_UPDATING)])%list ∧
       journal (p_mem p) =
         (journal (mem s) ++
           [EMakedirs (namespace_dir ns); EAddHandler o;
            EPut (Some (name, namespace, STATUS_UPDATING))])%list.
Proof.
  cbn zeta. unfold after_create.
  rewrite after_stop_idle by (intros pid; simpl; discriminate).
  unfold put_running, after_start, put_updating, register, after_init. simpl.
  assert (Hh : ∀ (h : list RayCluster) x (f : RayCluster → RayCluster),
             alter f (length h) (h ++ [x])%list !! length h = Some (f x)).
  { intros h x f. by rewrite list_lookup_alter_eq, snoc_lookup. }
  split_and!; try done; try (by rewrite <- !app_assoc); try apply Hh.
  eexists. split; [reflexivity|]. simpl.
  split_and!; try done; try (by rewrite <- !app_assoc); apply Hh.
Qed.

(** One run of a process that has not exited: what it leaves in the queue
    it holds. *)
Lemma run_proc_queue pid fault w p rc :
  procs w !! pid = Some p →
  heap (p_mem p) !! p_self p = Some rc →
  ∃ p', procs (run_proc pid fault w) !! pid = Some p' ∧
        p_self p' = p_self p ∧
        (∃ rc', heap (p_mem p') !! p_self p = Some rc' ∧ same_ident rc rc') ∧
        match p_stage p with
        | Exited _ => p' = p
        | _ =>
            cluster_status_q (p_mem p') =
              match p_stage p' with
              | Exited (Some _) =>
                  (cluster_status_q (p_mem p) ++
                    [Some (rc_name rc, rc_namespace rc, STATUS_AUTOSCALING_EXCEPTION)])%list
              | _ => cluster_status_q (p_mem p)
              end
        end.
Proof.
  intros Hp Hrc. unfold run_proc. rewrite Hp.
  destruct (p_stage p) eqn:Hst.
  3: { exists p. split_and!; try done.
       exists rc. split; [done | apply same_ident_refl]. }
  all: match goal with
       | |- context [_create_or_update ?a ?b ?c ?d ?s] =>
           destruct (_create_or_update a b c d s) as [r s'] eqn:E
       end;
    pose proof (child_heap _ _ _ _ _ _ _ E _ _ Hrc) as Hh;
    destruct (child_queue _ _ _ _ {| mem := p_mem p; world := w |} _ _ _ Hrc E) as (_ & Hq);
    apply child_procs in E as (E1 & _); simpl in *;
    eexists; split;
    [ apply list_lookup_insert_eq; rewrite E1; by eapply lookup_lt_Some
    | simpl; split_and!; try done; by destruct r ].
Qed.

(** The first run of a process: its configuration goes to the file before
    anything else. *)
Lemma run_proc_journal pid fault w p rc :
  procs w !! pid = Some p →
  p_stage p = Started →
  heap (p_mem p) !! p_self p = Some rc →
  files (run_proc pid fault w) !! rc_config_path rc ≠ None ∧
  ∃ p' rest, procs (run_proc pid fault w) !! pid = Some p' ∧
    journal (p_mem p') =
      (journal (p_mem p) ++
         EWrite (rc_config_path rc) (rc_config rc) ::
         EProvision (rc_config_path rc) (Some (rc_config rc)) (negb (p_restart_ray p)) ::
         rest)%list.
Proof.
  intros Hp Hst Hrc. unfold run_proc. rewrite Hp, Hst.
  match goal with
  | |- context [_create_or_update ?a ?b ?c ?d ?s] =>
      destruct (_create_or_update a b c d s) as [r s'] eqn:E
  end.
  destruct (child_journal _ _ _ {| mem := p_mem p; world := w |} _ _ _ Hrc E)
    as (Hf & rest & Hj).
  apply child_procs in E as (E1 & _). simpl in *.
  split; [done|]. eexists _, rest. split.
  - apply list_lookup_insert_eq. rewrite E1. by eapply lookup_lt_Some.
  - done.
Qed.

(** *** One process for each cluster *)

Lemma keyed_one s : wf s → keyed s → one_process_each s.
Proof.
  intros Hwf Hk pid1 pid2 p1 p2 Hp1 Hp2 Ha1 Ha2 Hc.
  destruct (wf_live s Hwf _ _ Hp1 Ha1) as (rc1 & rc1' & H1 & Hs1 & Hc1 & Hid1).
  destruct (wf_live s Hwf _ _ Hp2 Ha2) as (rc2 & rc2' & H2 & Hs2 & Hc2 & Hid2).
  unfold proc_cluster in Hc. rewrite Hc1, Hc2 in Hc.
  destruct (same_ident_fields _ _ Hid1) as (E1 & E1' & _).
  destruct (same_ident_fields _ _ Hid2) as (E2 & E2' & _).
  assert (Hcl : cluster_of rc1 = cluster_of rc2).
  { unfold cluster_of. rewrite E1, E1', E2, E2'. congruence. }
  pose proof (keyed_live s Hk _ _ _ Hp1 Ha1 H1) as R1.
  pose proof (keyed_live s Hk _ _ _ Hp2 Ha2 H2) as R2.
  rewrite Hcl in R1. rewrite R1 in R2. injection R2 as R2.
  rewrite R2 in H1. rewrite H1 in H2. injection H2 as ->. congruence.
Qed.

Lemma keyed_transfer s s' :
  keyed s →
  ray_clusters (mem s') = ray_clusters (mem s) →
  length (heap (mem s')) = length (heap (mem s)) →
  (∀ o rc, heap (mem s) !! o = Some rc →
           ∃ rc', heap (mem s') !! o = Some rc' ∧ same_ident rc rc') →
  length (procs (world s')) = length (procs (world s)) →
  (∀ i p, procs (world s) !! i = Some p →
     ∃ p', procs (world s') !! i = Some p' ∧ p_self p' = p_self p ∧
           (stage_alive (p_stage p') = true → stage_alive (p_stage p) = true)) →
  keyed s'.
Proof.
  intros Hk Hreg Hlen Hheap Hpl Hprocs.
  assert (Hback : ∀ o rc', heap (mem s') !! o = Some rc' →
            ∃ rc, heap (mem s) !! o = Some rc ∧ cluster_of rc = cluster_of rc').
  { intros o rc' H'. destruct (heap (mem s) !! o) as [rc|] eqn:E.
    - destruct (Hheap _ _ E) as (rc'' & H1 & H2). exists rc. split; [done|].
      simplify_eq. destruct (same_ident_fields _ _ H2) as (E1 & E2 & _).
      unfold cluster_of. by rewrite E1, E2.
    - apply lookup_ge_None in E. apply lookup_lt_Some in H'. lia. }
  split.
  - intros K o rc' HK H'. rewrite Hreg in HK.
    destruct (Hback _ _ H') as (rc & H1 & <-). by eapply keyed_registry.
  - intros pid p' rc' Hp' Ha H'.
    destruct (procs (world s) !! pid) as [p|] eqn:E.
    2: { apply lookup_ge_None in E. apply lookup_lt_Some in Hp'. lia. }
    destruct (Hprocs _ _ E) as (p'' & H1 & H2 & H3). simplify_eq.
    rewrite H2 in *. destruct (Hback _ _ H') as (rc & H4 & <-).
    rewrite Hreg. eapply keyed_live; eauto.
Qed.

Lemma keyed_mem s m' w' :
  keyed s → ray_clusters m' = ray_clusters (mem s) → heap m' = heap (mem s) →
  procs w' = procs (world s) →
  keyed {| mem := m'; world := w' |}.
Proof.
  intros Hk H1 H2 H3. apply (keyed_transfer s); simpl; try done; try congruence.
  - intros o rc H. rewrite H2. exists rc. split; [done|apply same_ident_refl].
  - intros i p Hp. rewrite H3. by exists p.
Qed.

Lemma keyed_q_put item s : keyed s → keyed (snd (q_put item s)).
Proof. intros Hk. by apply (keyed_mem s). Qed.

Lemma keyed_set_config s self config : keyed s → keyed (snd (set_config self config s)).
Proof.
  intros Hk. apply (keyed_transfer s); simpl; try done.
  - apply length_alter.
  - intros o rc H. by apply alter_config_lookup.
  - intros i p Hp. by exists p.
Qed.

Lemma keyed_after_stop s rc : keyed s → keyed (after_stop rc s).
Proof.
  intros Hk. destruct (stop_world_frame rc (world s)) as (_ & _ & _ & E4).
  apply (keyed_transfer s); try done.
  - intros o rc0 H0. exists rc0. split; [done | apply same_ident_refl].
  - intros i p Hp. destruct (stop_world_proc rc _ _ _ Hp) as (p' & H1 & H2 & _ & _ & H3 & _).
    by exists p'.
Qed.

Lemma keyed_run_proc pid fault s : keyed s → keyed (upd_world (run_proc pid fault) s).
Proof.
  intros Hk. destruct (run_proc_frame pid fault (world s)) as (E1 & E2 & E3 & E4).
  apply (keyed_transfer s); simpl; try done.
  - intros o rc H. exists rc. split; [done|apply same_ident_refl].
  - intros i p Hp. destruct (decide (i = pid)) as [->|Hne].
    + destruct (run_proc_at pid fault _ _ Hp) as (p' & H1 & H2 & _ & _ & H3 & _).
      by exists p'.
    + exists p. by rewrite run_proc_other by done.
Qed.

Lemma keyed_worker_frame s s' : keyed s → worker_frame s s' → keyed s'.
Proof.
  intros Hk (H1 & H2 & H3 & H4 & H5 & H6 & H7).
  apply (keyed_transfer s); try done; try congruence.
  - intros o rc H. rewrite H2. exists rc. split; [done|apply same_ident_refl].
  - intros i p Hp. rewrite H4. by exists p.
Qed.

Lemma keyed_after_init config nm ns s : wf s → keyed s → keyed (after_init config nm ns s).
Proof.
  intros Hwf Hk. unfold after_init. split; simpl.
  - intros K o rc HK H. pose proof (wf_registry s Hwf _ _ HK) as Hlt.
    rewrite lookup_app_l in H by done. by eapply keyed_registry.
  - intros pid p rc Hp Ha H.
    destruct (wf_live s Hwf _ _ Hp Ha) as (rc0 & _ & H0 & _).
    rewrite lookup_app_l in H by by eapply lookup_lt_Some.
    by eapply keyed_live.
Qed.

Lemma keyed_register s K o rc :
  keyed s → ray_clusters (mem s) !! K = None →
  heap (mem s) !! o = Some rc → cluster_of rc = K →
  keyed (register K o s).
Proof.
  intros Hk Hnone Hrc Hcl. split; simpl.
  - intros K' o' rc' HK H. apply lookup_insert_Some in HK as [[<- <-]|[_ HK]].
    + congruence.
    + by eapply keyed_registry.
  - intros pid p rc1 Hp Ha H.
    pose proof (keyed_live s Hk _ _ _ Hp Ha H) as R.
    unfold cluster_of in *. rewrite lookup_insert_ne; [done|]. intros E.
    rewrite <- E in R. congruence.
Qed.

Lemma keyed_after_start s self rc restart_ray :
  keyed s → heap (mem s) !! self = Some rc →
  ray_clusters (mem s) !! cluster_of rc = Some self →
  keyed (after_start self rc restart_ray s).
Proof.
  intros Hk Hrc Hreg. unfold after_start. split; simpl.
  - intros K o rc' HK H.
    apply alter_subprocess_lookup in H as (rc0 & H0 & [[-> ->]|[_ ->]]);
      exact (keyed_registry s Hk _ _ rc0 HK H0).
  - intros pid p rc' Hp Ha H.
    apply lookup_app_Some in Hp as [Hp|[Hge Hp]].
    + apply alter_subprocess_lookup in H as (rc0 & H0 & [[E ->]|[_ ->]]);
        exact (keyed_live s Hk _ _ rc0 Hp Ha H0).
    + apply list_lookup_singleton_Some in Hp as [_ <-]. simpl in *.
      rewrite list_lookup_alter_eq, Hrc in H. injection H as <-. done.
Qed.

Lemma keyed_after_clean_up s rc : keyed s → keyed (after_clean_up rc s).
Proof.
  intros Hk. pose proof (keyed_after_stop s rc Hk) as H1.
  unfold after_clean_up. by apply (keyed_mem (after_stop rc s)).
Qed.

Lemma keyed_unregister s K o rc :
  wf s → keyed s →
  ray_clusters (mem s) !! K = Some o → heap (mem s) !! o = Some rc →
  (∀ pid, rc_subprocess rc = Some pid → proc_alive (world s) pid = false) →
  keyed (unregister K s).
Proof.
  intros Hwf Hk HK Hrc Hdead. split; simpl.
  - intros K' o' rc' H' H. apply lookup_delete_Some in H' as [_ H'].
    by eapply keyed_registry.
  - intros pid p rc1 Hp Ha H.
    pose proof (keyed_live s Hk _ _ _ Hp Ha H) as R.
    unfold cluster_of in *. rewrite lookup_delete_ne; [done|]. intros E. rewrite <- E in R.
    rewrite HK in R. injection R as R.
    destruct (wf_live s Hwf _ _ Hp Ha) as (rc2 & _ & H2 & Hs2 & _).
    rewrite <- R, Hrc in H2. injection H2 as <-.
    pose proof (Hdead _ Hs2) as Hd. unfold proc_alive in Hd.
    rewrite Hp in Hd. congruence.
Qed.

Lemma keyed_after_update s o rc config rr name namespace :
  wf s → keyed s → heap (mem s) !! o = Some rc →
  ray_clusters (mem s) !! cluster_of rc = Some o →
  keyed (after_update o rc config rr name namespace s).
Proof.
  intros Hwf Hk Hrc Hreg. unfold after_update.
  set (s1 := put_updating name namespace s).
  assert (Hk1 : keyed s1) by by apply keyed_q_put.
  set (s2 := after_stop rc s1).
  assert (Hk2 : keyed s2) by by apply keyed_after_stop.
  set (s3 := snd (set_config o config s2)).
  assert (Hk3 : keyed s3) by by apply keyed_set_config.
  assert (Hrc3 : heap (mem s3) !! o = Some (set_rc_config config rc)).
  { subst s3 s2 s1. simpl. by rewrite list_lookup_alter_eq, Hrc. }
  apply keyed_q_put. apply keyed_after_start.
  - by apply keyed_after_stop.
  - done.
  - done.
Qed.

Lemma keyed_after_create s config nm ns name namespace :
  wf s → keyed s →
  ray_clusters (mem s) !! (name, namespace) = None →
  (nm, ns) = (name, namespace) →
  keyed (after_create config nm ns name namespace s).
Proof.
  intros Hwf Hk Hnone Hnames. unfold after_create.
  set (o := length (heap (mem s))).
  set (rc := new_cluster config nm ns (length (events (world s))) o).
  set (s1 := register (name, namespace) o (after_init config nm ns s)).
  assert (Hk1 : keyed s1).
  { apply (keyed_register _ _ _ rc); [by apply keyed_after_init|done|apply snoc_lookup|done]. }
  set (s2 := put_updating name namespace s1).
  assert (Hk2 : keyed s2) by by apply keyed_q_put.
  assert (Hrc2 : heap (mem s2) !! o = Some rc) by apply snoc_lookup.
  apply keyed_q_put. apply keyed_after_start.
  - by apply keyed_after_stop.
  - done.
  - simpl. unfold cluster_of. simpl. rewrite Hnames. apply lookup_insert_eq.
Qed.

(** [removeHandler] takes out the first occurrence of the handler, and
    nothing when there is none. *)
Lemma remove_first_spec h l :
  ((h ∉ l) ∧ remove_first h l = l) ∨
  ∃ l1 l2, l = (l1 ++ h :: l2)%list ∧ (h ∉ l1) ∧ remove_first h l = (l1 ++ l2)%list.
Proof.
  induction l as [|x l IH]; simpl.
  - left. split; [apply not_elem_of_nil | done].
  - destruct (Nat.eqb_spec x h) as [->|Hne].
    + right. exists [], l. split_and!; [done | apply not_elem_of_nil | done].
    + destruct IH as [[Hn E]|(l1 & l2 & E1 & Hn & E2)].
      * left. split; [|by rewrite E]. apply not_elem_of_cons. split; [congruence|done].
      * right. exists (x :: l1), l2. split_and!.
        -- by rewrite E1.
        -- apply not_elem_of_cons. split; [congruence|done].
        -- by rewrite E2.
Qed.

(** *** A process whose work fails *)




End Facts.

(** * The claims of the design document *)

Local Open Scope list_scope.

Section Claims.
Context `{C : Collaborators}.

Lemma verdict_ints old new g_old g_new r_old r_new :
  generation_of old = Returns (VInt g_old) →
  generation_of new = Returns (VInt g_new) →
  retries_of old = Returns (VInt r_old) →
  retries_of new = Returns (VInt r_new) →
  update_verdict old new = Returns (Z.ltb g_old g_new, Z.ltb r_old r_new).
Proof.
  intros H1 H2 H3 H4. unfold update_verdict. by rewrite H1, H2, H3, H4.
Qed.

(** C3. An update event whose new generation is not greater than the old
    one and whose new retry count is not greater than the old one does
    nothing: the handler returns with the whole state (registry, status
    queue, supervisors, processes, files, journal) as it was. *)
Theorem update_fn_inert body old new name namespace s g_old g_new r_old r_new :
  generation_of old = Returns (VInt g_old) →
  generation_of new = Returns (VInt g_new) →
  retries_of old = Returns (VInt r_old) →
  retries_of new = Returns (VInt r_new) →
  ¬ (g_new > g_old)%Z →
  ¬ (r_new > r_old)%Z →
  snd (update_fn body old new name namespace s) = s ∧
  (∀ config, cr_to_config body = Returns config →
             update_fn body old new name namespace s = (Ok tt, s)).
Proof.
  intros H1 H2 H3 H4 Hg Hr.
  pose proof (verdict_ints _ _ _ _ _ _ H1 H2 H3 H4) as Hv.
  replace (Z.ltb g_old g_new) with false in Hv by (symmetry; apply Z.ltb_ge; lia).
  replace (Z.ltb r_old r_new) with false in Hv by (symmetry; apply Z.ltb_ge; lia).
  assert (Hc : ∀ config, cr_to_config body = Returns config →
             update_fn body old new name namespace s = (Ok tt, s)).
  { intros config Hc. by eapply update_fn_idle. }
  split; [|done].
  destruct (cr_to_config body) as [config|e] eqn:E.
  - by rewrite (Hc _ eq_refl).
  - by rewrite (update_fn_raises_config _ _ _ _ _ _ _ E).
Qed.

Lemma generation_of_lacks b :
  lacks_generation b = true → ∃ k, generation_of b = Raises (KeyError k).
Proof.
  unfold lacks_generation, generation_of, py_getitem.
  destruct b as [| | |kvs]; try done.
  destruct (assoc "metadata" kvs) as [[| | |md]|]; try done; [|by eexists].
  destruct (assoc "generation" md); try done. by eexists.
Qed.

Lemma generation_of_body b :
  resource_body b = true →
  (∃ g, generation_of b = Returns g) ∨ (∃ k, generation_of b = Raises (KeyError k)).
Proof.
  unfold resource_body, generation_of, py_getitem.
  destruct b as [| | |kvs]; try done.
  destruct (assoc "metadata" kvs) as [[| | |md]|]; try done; [|right; by eexists].
  destruct (assoc "generation" md); [left|right]; by eexists.
Qed.

Lemma retries_of_no_status kvs :
  assoc "status" kvs = None → retries_of (VDict kvs) = Returns (VInt 0).
Proof. intros H. unfold retries_of. simpl. by rewrite H. Qed.

(** C10. The update handler indexes [metadata.generation] on both bodies
    without a default: when the old or the new body lacks it, the handler
    raises before it touches the registry, a supervisor or the status
    queue (the state is as it was), and the error is the lookup error
    [KeyError] whenever [cr_to_config] has returned; a body without
    [status], in contrast, just reads as retry count 0. *)
Theorem update_fn_missing_generation body old new name namespace s :
  resource_body old = true →
  lacks_generation old = true ∨ lacks_generation new = true →
  (∃ e, update_fn body old new name namespace s = (Exc e, s) ∧
        (∀ config, cr_to_config body = Returns config → ∃ k, e = KeyError k)) ∧
  (∀ kvs, assoc "status" kvs = None → retries_of (VDict kvs) = Returns (VInt 0)).
Proof.
  intros Hbody Hlacks. split; [|apply retries_of_no_status].
  destruct (cr_to_config body) as [config|e] eqn:E1.
  2: { exists e. split; [by apply update_fn_raises_config | congruence]. }
  assert (Hv : ∃ k, update_verdict old new = Raises (KeyError k)).
  { unfold update_verdict.
    destruct (generation_of_body old Hbody) as [[g Hg]|[k Hk]].
    - rewrite Hg. destruct Hlacks as [Hl|Hl].
      + apply generation_of_lacks in Hl as [k Hk]. congruence.
      + apply generation_of_lacks in Hl as [k Hk]. rewrite Hk. by eexists.
    - rewrite Hk. by eexists. }
  destruct Hv as [k Hv]. exists (KeyError k). split.
  - by eapply update_fn_raises_verdict.
  - intros _ _. by eexists.
Qed.

Lemma enqueue_spec items s :
  cluster_status_q (mem (enqueue items s)) = cluster_status_q (mem s) ++ map Some items ∧
  status_handler (mem (enqueue items s)) = status_handler (mem s) ∧
  world (enqueue items s) = world s.
Proof.
  revert s. induction items as [|item items IH]; intros s.
  - simpl. by rewrite app_nil_r.
  - destruct (IH (snd (q_put (Some item) s))) as (H1 & H2 & H3).
    change (enqueue (item :: items) s) with (enqueue items (snd (q_put (Some item) s))).
    rewrite H1, H2, H3. simpl. by rewrite <- app_assoc.
Qed.

(** The loop itself, once it is given the queue, writes every item that
    precedes the sentinel, in order, and then returns. *)
Lemma status_handling_loop_flushes items s :
  (∀ n ns phase, set_status n ns phase = Returns tt) →
  cluster_status_q (mem s) = map Some items ++ [None] →
  ∃ s', status_handling_loop Cluster_status_q s = (Ok tt, s') ∧
        status_writes (world s') = status_writes (world s) ++ items ∧
        cluster_status_q (mem s') = [].
Proof.
  intros Hset Hq. unfold status_handling_loop. rewrite Hq. clear Hq.
  revert s. induction items as [|[[n ns] ph] items IH]; intros s; simpl.
  - eexists. split; [reflexivity|]. simpl. by rewrite app_nil_r.
  - unfold bind at 1. unfold modify at 1. cbn beta iota zeta.
    unfold bind at 1. unfold report. unfold try_except, bind, call, modify, emit, ret.
    rewrite Hset. unfold modify. cbn beta iota zeta.
    match goal with |- context [status_handling_loop_from _ ?s1] =>
      destruct (IH s1) as (s' & E & Hw & Hq') end.
    exists s'. rewrite E. split; [done|]. split; [|done].
    rewrite Hw. simpl. by rewrite <- app_assoc.
Qed.

(** C1 (as the code has it). [start_background_worker] builds the thread
    without arguments while [status_handling_loop] requires its [queue]
    parameter: the worker ends at once with a [TypeError].  Whatever items
    are enqueued afterwards, the shutdown path (put the sentinel, join)
    returns with no status written and with every item and the sentinel
    still in the queue. *)
Theorem status_worker_never_flushes (items : list StatusItem) (s : State) :
  let s1 := snd (start_background_worker s) in
  let s3 := snd (stop_background_worker (enqueue items s1)) in
  stop_background_worker (enqueue items s1) = (Ok tt, s3) ∧
  status_handler (mem s1) = Some {| t_args := []; t_state := ThreadDone (Some TypeError) |} ∧
  status_writes (world s3) = status_writes (world s) ∧
  cluster_status_q (mem s3) = cluster_status_q (mem s) ++ map Some items ++ [None].
Proof.
  cbn zeta.
  set (s1 := snd (start_background_worker s)).
  assert (H1 : status_handler (mem s1)
               = Some {| t_args := []; t_state := ThreadDone (Some TypeError) |}) by done.
  assert (H1q : cluster_status_q (mem s1) = cluster_status_q (mem s)) by done.
  assert (H1w : world s1 = world s) by done.
  destruct (enqueue_spec items s1) as (Hq & Hh & Hw).
  generalize dependent (enqueue items s1). intros s2 Hq Hh Hw.
  rewrite H1 in Hh. rewrite H1q in Hq. rewrite H1w in Hw.
  unfold stop_background_worker, Thread_join, Thread_step, q_put.
  unfold bind, modify, emit, gets, ret. simpl. repeat (rewrite Hh; simpl).
  rewrite Hq, Hw. repeat split; try done. by rewrite <- app_assoc.
Qed.

Lemma update_fn_acting body old new name namespace s config sc rr :
  wf s →
  cr_to_config body = Returns config →
  update_verdict old new = Returns (sc, rr) →
  sc || rr = true →
  (ray_clusters (mem s) !! (name, namespace) = None → is_Some (config_names config)) →
  ∃ o rc s0,
    looked_up_or_created config (name, namespace) s o rc s0 ∧
    wf s0 ∧ heap (mem s0) !! o = Some rc ∧
    ray_clusters (mem s0) !! (name, namespace) = Some o ∧
    cluster_status_q (mem s0) = cluster_status_q (mem s) ∧
    length (procs (world s0)) = length (procs (world s)) ∧
    update_fn body old new name namespace s =
      (Ok tt, after_update o rc config rr name namespace s0).
Proof.
  intros Hwf H1 H2 H3 Hnew.
  destruct (ray_clusters (mem s) !! (name, namespace)) as [o|] eqn:E4.
  - pose proof (wf_registry s Hwf _ _ E4) as Hlt.
    apply lookup_lt_is_Some_2 in Hlt as [rc Hrc].
    exists o, rc, s. split; [by left|]. split_and!; try done.
    by eapply update_fn_known.
  - destruct (Hnew eq_refl) as [[nm ns] E5].
    eexists _, _, _. split; [right; split; [done|]; by eexists _, _|].
    split_and!; try done.
    + apply wf_register; [by apply wf_after_init|]. simpl. rewrite length_app. simpl. lia.
    + apply snoc_lookup.
    + simpl. by rewrite lookup_insert_eq.
    + by eapply update_fn_new.
Qed.

(** C4. An update event whose generation or retry count has strictly
    increased makes the handler return normally after it has: looked up
    the supervisor for the identifier or created and registered one;
    enqueued [Updating]; stopped the process the supervisor tracked, if it
    was alive; replaced the supervisor's configuration, so that the object
    and the copy the new process holds have the configuration built from
    the event's body; started a new process whose [restart_ray] argument
    is [new retries > old retries]; and enqueued [Running] - in this
    order, as the journal shows. *)
Theorem update_fn_acts body old new name namespace s config g_old g_new r_old r_new :
  wf s →
  cr_to_config body = Returns config →
  generation_of old = Returns (VInt g_old) →
  generation_of new = Returns (VInt g_new) →
  retries_of old = Returns (VInt r_old) →
  retries_of new = Returns (VInt r_new) →
  (g_new > g_old ∨ r_new > r_old)%Z →
  (ray_clusters (mem s) !! (name, namespace) = None → is_Some (config_names config)) →
  ∃ o rc s0,
    looked_up_or_created config (name, namespace) s o rc s0 ∧
    let restart := bool_decide (r_new > r_old)%Z in
    let pid := length (procs (world s)) in
    let rc' := set_rc_subprocess (Some pid) (set_rc_config config rc) in
    let s' := snd (update_fn body old new name namespace s) in
    update_fn body old new name namespace s = (Ok tt, s') ∧
    ray_clusters (mem s') !! (name, namespace) = Some o ∧
    cluster_status_q (mem s') =
      cluster_status_q (mem s) ++
        [Some (name, namespace, STATUS_UPDATING); Some (name, namespace, STATUS_RUNNING)] ∧
    journal (mem s') =
      journal (mem s0) ++ [EPut (Some (name, namespace, STATUS_UPDATING))] ++
        stop_effects rc (world s0) ++
        [EProcStart pid (rc_subprocess_name rc) restart;
         EPut (Some (name, namespace, STATUS_RUNNING))] ∧
    (∀ pid0, rc_subprocess rc = Some pid0 → proc_alive (world s') pid0 = false) ∧
    heap (mem s') !! o = Some rc' ∧
    rc_config rc' = config ∧
    rc_subprocess rc' = Some pid ∧
    (∃ p, procs (world s') !! pid = Some p ∧ p_self p = o ∧ p_restart_ray p = restart ∧
          p_stage p = Started ∧ heap (p_mem p) !! o = Some rc').
Proof.
  intros Hwf H1 Hg1 Hg2 Hr1 Hr2 Hinc Hnew.
  pose proof (verdict_ints _ _ _ _ _ _ Hg1 Hg2 Hr1 Hr2) as Hv.
  assert (Hrr : Z.ltb r_old r_new = bool_decide (r_new > r_old)%Z).
  { destruct (Z.ltb_spec r_old r_new).
    - symmetry. apply bool_decide_eq_true. lia.
    - symmetry. apply bool_decide_eq_false. lia. }
  assert (Hor : Z.ltb g_old g_new || Z.ltb r_old r_new = true).
  { apply orb_true_iff. destruct Hinc; [left|right]; apply Z.ltb_lt; lia. }
  destruct (update_fn_acting _ _ _ name namespace _ _ _ _ Hwf H1 Hv Hor Hnew)
    as (o & rc & s0 & Hsup & Hwf0 & Hrc0 & Hreg0 & Hq0 & Hlen0 & E).
  exists o, rc, s0. split; [done|]. cbn zeta. rewrite E. simpl.
  destruct (after_update_facts s0 o rc config (Z.ltb r_old r_new) name namespace Hwf0 Hrc0)
    as (F1 & F2 & F3 & F4 & F5 & F6 & _).
  rewrite <- Hrr, <- Hlen0, <- Hq0.
  split_and!; try done; by rewrite ?F1.
Qed.

Lemma retries_of_returns b v : retries_of b = Returns v → v = retries_value b.
Proof.
  unfold retries_of, retries_value, retries_field, py_get.
  destruct b as [| | |kvs]; try done.
  destruct (assoc "status" kvs) as [[| | |st]|]; simpl; try done.
  - destruct (assoc AUTOSCALER_RETRIES_FIELD st); simpl; congruence.
  - congruence.
Qed.

Lemma verdict_returns old new sc rr :
  update_verdict old new = Returns (sc, rr) →
  ∃ og cg orr ar,
    generation_of old = Returns og ∧ generation_of new = Returns cg ∧
    retries_of old = Returns orr ∧ retries_of new = Returns ar ∧
    py_gt cg og = Returns sc ∧ py_gt ar orr = Returns rr.
Proof.
  unfold update_verdict. intros H.
  destruct (generation_of old) as [og|]; [|done].
  destruct (generation_of new) as [cg|]; [|done].
  destruct (retries_of old) as [orr|]; [|done].
  destruct (retries_of new) as [ar|]; [|done].
  destruct (py_gt cg og) as [sc'|] eqn:Esc; [|done].
  destruct (py_gt ar orr) as [rr'|] eqn:Err; [|done].
  injection H as -> ->. by exists og, cg, orr, ar.
Qed.

(** C9. In the update handler a missing retry field, or a missing
    [status], on either body reads as 0; the restart decision is the
    comparison of the two values so read, and it is the [restart_ray] the
    new process is started with.  The retry count being a counter, not
    negative: a restart is required exactly when the field is present on
    the new body with a value strictly greater than the old value,
    defaulted or not. *)
Theorem restart_decision body old new name namespace s config sc rr :
  wf s →
  cr_to_config body = Returns config →
  update_verdict old new = Returns (sc, rr) →
  (ray_clusters (mem s) !! (name, namespace) = None → is_Some (config_names config)) →
  (∀ b, b = old ∨ b = new → retries_field b = None → retries_of b = Returns (VInt 0)) ∧
  py_gt (retries_value new) (retries_value old) = Returns rr ∧
  (sc || rr = true →
   ∃ p, procs (world (snd (update_fn body old new name namespace s)))
          !! length (procs (world s)) = Some p ∧ p_restart_ray p = rr) ∧
  (∀ r_old, retries_value old = VInt r_old → (0 ≤ r_old)%Z →
            (rr = true ↔
             ∃ r_new, retries_field new = Some (VInt r_new) ∧ (r_new > r_old)%Z)).
Proof.
  intros Hwf H1 Hv Hnew.
  destruct (verdict_returns _ _ _ _ Hv) as (og & cg & orr & ar & Hg1 & Hg2 & Hr1 & Hr2 & Hsc & Hrr).
  pose proof (retries_of_returns _ _ Hr1) as Ho.
  pose proof (retries_of_returns _ _ Hr2) as Hn.
  subst orr ar. split_and!.
  - intros b [->| ->] Hf.
    + rewrite Hr1. unfold retries_value. by rewrite Hf.
    + rewrite Hr2. unfold retries_value. by rewrite Hf.
  - done.
  - intros Hor.
    destruct (update_fn_acting _ _ _ name namespace _ _ _ _ Hwf H1 Hv Hor Hnew)
      as (o & rc & s0 & Hsup & Hwf0 & Hrc0 & Hreg0 & Hq0 & Hlen0 & E).
    rewrite E. simpl.
    destruct (after_update_facts s0 o rc config rr name namespace Hwf0 Hrc0)
      as (_ & _ & _ & _ & _ & (p & Hp & _ & Hr & _) & _).
    exists p. rewrite <- Hlen0. done.
  - intros r_old Hold Hpos. rewrite Hold in Hrr.
    unfold retries_value in Hrr |- *. split.
    + intros ->. destruct (retries_field new) as [v|] eqn:Ef; simpl in Hrr.
      * destruct v as [|r_new| |]; simpl in Hrr; try done.
        exists r_new. split; [done|]. injection Hrr as Hlt. apply Z.ltb_lt in Hlt. lia.
      * injection Hrr as Hlt. apply Z.ltb_lt in Hlt. lia.
    + intros (r_new & Ef & Hgt). rewrite Ef in Hrr. simpl in Hrr.
      injection Hrr as <-. apply Z.ltb_lt. lia.
Qed.

(** C8. A delete event for an identifier that has no registry entry leaves
    the state as it is and returns.  For an identifier that has one, the
    handler runs [clean_up] and takes the entry out of the registry only
    when [clean_up] has returned: were [clean_up] to raise or to wait, the
    entry would still be there.  In a well-formed state [clean_up] returns
    - the tracked process stopped if it was alive, the log handler taken
    off the root logger, the configuration file removed or found missing,
    in this order - and then the entry is removed; no status item is
    enqueued. *)
Theorem delete_fn_spec name namespace s :
  (∀ o, ray_clusters (mem s) !! (name, namespace) = Some o →
     delete_fn name namespace s =
       match clean_up o s with
       | (Ok _, s1) => (Ok tt, unregister (name, namespace) s1)
       | (Exc e, s1) => (Exc e, s1)
       | (Blocked, s1) => (Blocked, s1)
       end) ∧
  (wf s →
   (ray_clusters (mem s) !! (name, namespace) = None →
    delete_fn name namespace s = (Ok tt, s)) ∧
   (∀ o, ray_clusters (mem s) !! (name, namespace) = Some o →
     ∃ rc, heap (mem s) !! o = Some rc ∧
       let s' := snd (delete_fn name namespace s) in
       delete_fn name namespace s = (Ok tt, s') ∧
       clean_up o s = (Ok tt, snd (clean_up o s)) ∧
       s' = unregister (name, namespace) (snd (clean_up o s)) ∧
       (∀ pid, rc_subprocess rc = Some pid → proc_alive (world s') pid = false) ∧
       files (world s') !! rc_config_path rc = None ∧
       root_logger (mem s') = remove_first (rc_handler rc) (root_logger (mem s)) ∧
       (((rc_handler rc ∉ root_logger (mem s)) ∧
         root_logger (mem s') = root_logger (mem s)) ∨
        ∃ l1 l2, root_logger (mem s) = l1 ++ rc_handler rc :: l2 ∧
                 (rc_handler rc ∉ l1) ∧ root_logger (mem s') = l1 ++ l2) ∧
       ray_clusters (mem s') = delete (name, namespace) (ray_clusters (mem s)) ∧
       cluster_status_q (mem s') = cluster_status_q (mem s) ∧
       ∃ removed, (removed = [] ∨ removed = [ERemove (rc_config_path rc)]) ∧
         journal (mem s') =
           journal (mem s) ++ stop_effects rc (world s) ++
             ERemoveHandler (rc_handler rc) :: removed)).
Proof.
  split.
  { intros o Hreg. unfold delete_fn.
    unfold bind at 1. unfold gets at 1. cbn beta iota zeta. rewrite Hreg.
    unfold bind. destruct (clean_up o s) as [[[]|e|] s1]; reflexivity. }
  intros Hwf. split; [apply delete_fn_absent|].
  intros o Hreg.
  pose proof (wf_registry s Hwf _ _ Hreg) as Hlt.
  apply lookup_lt_is_Some_2 in Hlt as [rc Hrc].
  exists rc. split; [done|]. cbn zeta.
  rewrite (delete_fn_exec _ _ _ _ _ Hwf Hreg Hrc), (clean_up_exec _ _ _ Hwf Hrc).
  simpl. split_and!; try done.
  - intros pid Hsub. apply (stop_world_dead s o rc pid Hwf Hrc Hsub).
  - apply lookup_delete_eq.
  - destruct (remove_first_spec (rc_handler rc) (root_logger (mem s)))
      as [[Hn E]|(l1 & l2 & E1 & Hn & E2)].
    + left. by rewrite E.
    + right. exists l1, l2. by rewrite E2.
  - destruct (files (stop_world rc (world s)) !! rc_config_path rc).
    + eexists. split; [by right|]. by rewrite <- app_assoc.
    + eexists. split; [by left|]. by rewrite <- app_assoc.
Qed.


(** C6 (amended). [create_or_update] stops the tracked process if it is
    alive and starts the new one; it writes no file itself.  The process
    it has started holds the configuration as it was at the launch, and
    its first action, whatever happens to it afterwards, is to write that
    configuration to the configuration path; only then does it provision,
    from the file that now holds it. *)
Theorem create_or_update_writes_in_process self rc restart_ray fault s :
  wf s →
  heap (mem s) !! self = Some rc →
  let s1 := snd (create_or_update self restart_ray s) in
  let pid := length (procs (world s)) in
  let w2 := run_proc pid fault (world s1) in
  create_or_update self restart_ray s = (Ok tt, s1) ∧
  journal (mem s1) =
    journal (mem s) ++ stop_effects rc (world s) ++
      [EProcStart pid (rc_subprocess_name rc) restart_ray] ∧
  files (world s1) = files (stop_world rc (world s)) ∧
  ∃ p, procs (world s1) !! pid = Some p ∧ p_stage p = Started ∧
       p_restart_ray p = restart_ray ∧
       (∃ rc', heap (p_mem p) !! self = Some rc' ∧ rc_config rc' = rc_config rc ∧
               rc_config_path rc' = rc_config_path rc) ∧
       files w2 !! rc_config_path rc ≠ None ∧
       ∃ p' rest, procs w2 !! pid = Some p' ∧
         journal (p_mem p') =
           journal (p_mem p) ++
             EWrite (rc_config_path rc) (rc_config rc) ::
             EProvision (rc_config_path rc) (Some (rc_config rc)) (negb restart_ray) :: rest.
Proof.
  intros Hwf Hrc. cbn zeta. unfold create_or_update.
  rewrite (do_in_subprocess_exec _ _ _ restart_ray Hwf Hrc). cbn [snd].
  destruct (stop_world_frame rc (world s)) as (_ & _ & _ & Hlen).
  rewrite <- Hlen. clear Hlen.
  set (pid := length (procs (stop_world rc (world s)))).
  set (p := {| p_name := rc_subprocess_name rc; p_self := self;
               p_restart_ray := restart_ray;
               p_mem := set_heap (alter (set_rc_subprocess (Some pid)) self (heap (mem s)))
                          (mem (after_stop rc s));
               p_stage := Started |}).
  assert (Hp : procs (world (after_start self rc restart_ray (after_stop rc s))) !! pid
               = Some p).
  { unfold after_start. simpl. apply snoc_lookup. }
  assert (Hh : heap (p_mem p) !! p_self p = Some (set_rc_subprocess (Some pid) rc)).
  { simpl. by rewrite list_lookup_alter_eq, Hrc. }
  destruct (run_proc_journal pid fault _ p _ Hp eq_refl Hh) as (Hf & p' & rest & Hp' & Hj).
  split_and!.
  - done.
  - unfold after_start. simpl. by rewrite <- app_assoc.
  - done.
  - exists p. split_and!; try done.
    + eexists. split; [exact Hh|]. done.
    + by exists p', rest.
Qed.

(** The registry after one event. *)
Lemma registry_step e s :
  wf s →
  dom (ray_clusters (mem (handle e s))) = tracked_step (dom (ray_clusters (mem s))) e.
Proof.
  intros Hwf. destruct e as [| |body name namespace|body old new name namespace
                             |name namespace|pid fault|]; cbn [handle tracked_step].
  - destruct (start_background_worker_frame s) as (-> & _). done.
  - destruct (stop_background_worker_frame s) as (-> & _). done.
  - unfold create_registers.
    destruct (cr_to_config body) as [config|e] eqn:E1.
    2: { by rewrite (create_fn_raises_config _ _ _ _ _ E1). }
    destruct (check_redis_password_not_specified config (name, namespace)) as [[]|e] eqn:E2.
    2: { by rewrite (create_fn_raises_check _ _ _ _ _ _ E1 E2). }
    destruct (config_names config) as [[nm ns]|] eqn:E3.
    + rewrite (create_fn_exec _ _ _ _ _ _ _ Hwf E1 E2 E3). cbn [snd].
      destruct (after_create_facts config nm ns name namespace s) as (-> & _).
      rewrite bool_decide_eq_true_2 by by eexists. by rewrite dom_insert_L.
    + destruct (create_fn_raises_init _ name namespace s _ E1 E2 E3) as (e & s' & -> & Hm & _).
      cbn [snd]. rewrite Hm.
      rewrite bool_decide_eq_false_2; [done|]. by intros [? ?].
  - unfold update_registers.
    destruct (cr_to_config body) as [config|e] eqn:E1.
    2: { by rewrite (update_fn_raises_config _ _ _ _ _ _ _ E1). }
    destruct (update_verdict old new) as [[sc rr]|e] eqn:E2.
    2: { by rewrite (update_fn_raises_verdict _ _ _ _ _ _ _ _ E1 E2). }
    destruct (sc || rr) eqn:E3.
    2: { apply orb_false_elim in E3 as [-> ->].
         by rewrite (update_fn_idle _ _ _ _ _ _ _ E1 E2). }
    destruct (ray_clusters (mem s) !! (name, namespace)) as [o|] eqn:E4.
    + pose proof (wf_registry s Hwf _ _ E4) as Hlt.
      apply lookup_lt_is_Some_2 in Hlt as [rc Hrc].
      rewrite (update_fn_known _ _ _ _ _ _ _ _ _ _ _ Hwf E1 E2 E3 E4 Hrc). cbn [snd].
      destruct (after_update_facts s o rc config rr name namespace Hwf Hrc) as (-> & _).
      assert ((name, namespace) ∈ dom (ray_clusters (mem s))) by (apply elem_of_dom; by eexists).
      simpl. destruct (bool_decide _); set_solver.
    + destruct (config_names config) as [[nm ns]|] eqn:E5.
      * rewrite (update_fn_new _ _ _ _ _ _ _ _ _ _ _ Hwf E1 E2 E3 E4 E5). cbn [snd].
        match goal with
        | |- context [after_update ?o ?rc _ _ _ _ ?s0] =>
            assert (Hwf0 : wf s0)
              by (apply wf_register; [by apply wf_after_init|];
                  simpl; rewrite length_app; simpl; lia);
            assert (Hrc0 : heap (mem s0) !! o = Some rc) by apply snoc_lookup;
            destruct (after_update_facts s0 o rc config rr name namespace Hwf0 Hrc0)
              as (-> & _)
        end.
        simpl. rewrite ?bool_decide_eq_true_2 by by eexists. by rewrite dom_insert_L.
      * destruct (update_fn_new_fail _ _ _ name namespace s _ _ _ E1 E2 E3 E4 E5)
          as (e & s' & -> & Hm & _).
        cbn [snd]. rewrite Hm. simpl.
        first [done | rewrite bool_decide_eq_false_2; [done|]; by intros [? ?]].
  - destruct (ray_clusters (mem s) !! (name, namespace)) as [o|] eqn:E4.
    + pose proof (wf_registry s Hwf _ _ E4) as Hlt.
      apply lookup_lt_is_Some_2 in Hlt as [rc Hrc].
      rewrite (delete_fn_exec _ _ _ _ _ Hwf E4 Hrc). simpl. by rewrite dom_delete_L.
    + rewrite (delete_fn_absent _ _ _ E4). simpl.
      apply not_elem_of_dom in E4. set_solver.
  - done.
  - destruct (thread_step_frame s) as (-> & _). done.
Qed.

Lemma registry_run evs : ∀ s,
  wf s →
  dom (ray_clusters (mem (run evs s))) = fold_left tracked_step evs (dom (ray_clusters (mem s))).
Proof.
  induction evs as [|e evs IH]; intros s Hwf; [done|].
  simpl. rewrite <- (registry_step e s Hwf). apply IH. by apply wf_handle.
Qed.

(** C7 (amended). In every state the operator reaches from its initial
    state, the registry has a supervisor under an identifier exactly when
    some event processed so far has registered it - a create event for it
    whose configuration was built, passed the check and named the cluster,
    or an update event for it that acted under the same condition - and
    no delete event for it has been processed since. *)
Theorem registry_tracks evs K :
  is_Some (ray_clusters (mem (run evs init)) !! K) ↔ K ∈ tracked evs.
Proof.
  rewrite <- elem_of_dom, (registry_run evs init wf_init). unfold tracked.
  simpl. by rewrite dom_empty_L.
Qed.

(** *** One live process for each cluster *)

Lemma names_agree_eq body K config K' :
  names_agree body K = true → cr_to_config body = Returns config →
  config_names config = Some K' → K' = K.
Proof.
  unfold names_agree. intros H E1 E2. rewrite E1, E2 in H.
  by apply bool_decide_eq_true in H.
Qed.

Lemma keyed_handle e s : wf s → keyed s → event_ok s e = true → keyed (handle e s).
Proof.
  intros Hwf Hk Hok.
  destruct e as [| |body name namespace|body old new name namespace
                 |name namespace|pid fault|]; cbn [handle event_ok] in *.
  - eapply keyed_worker_frame; [done | apply start_background_worker_frame].
  - eapply keyed_worker_frame; [done | apply stop_background_worker_frame].
  - apply andb_true_iff in Hok as [Hfresh Hnames].
    apply bool_decide_eq_true in Hfresh.
    destruct (cr_to_config body) as [config|e] eqn:E1.
    2: { by rewrite (create_fn_raises_config _ _ _ _ _ E1). }
    destruct (check_redis_password_not_specified config (name, namespace)) as [[]|e] eqn:E2.
    2: { by rewrite (create_fn_raises_check _ _ _ _ _ _ E1 E2). }
    destruct (config_names config) as [[nm ns]|] eqn:E3.
    + rewrite (create_fn_exec _ _ _ _ _ _ _ Hwf E1 E2 E3). cbn [snd].
      apply keyed_after_create; try done. by eapply names_agree_eq.
    + destruct (create_fn_raises_init _ name namespace s _ E1 E2 E3) as (e & s' & -> & Hm & Hw).
      cbn [snd]. destruct s' as [m' w']. simpl in *.
      apply (keyed_mem s); [done|by rewrite Hm|by rewrite Hm|by rewrite Hw].
  - destruct (cr_to_config body) as [config|e] eqn:E1.
    2: { by rewrite (update_fn_raises_config _ _ _ _ _ _ _ E1). }
    destruct (update_verdict old new) as [[sc rr]|e] eqn:E2.
    2: { by rewrite (update_fn_raises_verdict _ _ _ _ _ _ _ _ E1 E2). }
    destruct (sc || rr) eqn:E3.
    2: { apply orb_false_elim in E3 as [-> ->].
         by rewrite (update_fn_idle _ _ _ _ _ _ _ E1 E2). }
    destruct (ray_clusters (mem s) !! (name, namespace)) as [o|] eqn:E4.
    + pose proof (wf_registry s Hwf _ _ E4) as Hlt.
      apply lookup_lt_is_Some_2 in Hlt as [rc Hrc].
      rewrite (update_fn_known _ _ _ _ _ _ _ _ _ _ _ Hwf E1 E2 E3 E4 Hrc). cbn [snd].
      apply keyed_after_update; try done.
      by rewrite (keyed_registry s Hk _ _ _ E4 Hrc).
    + destruct (config_names config) as [[nm ns]|] eqn:E5.
      * rewrite (update_fn_new _ _ _ _ _ _ _ _ _ _ _ Hwf E1 E2 E3 E4 E5). cbn [snd].
        pose proof (names_agree_eq _ _ _ _ Hok E1 E5) as Hn.
        apply keyed_after_update.
        -- apply wf_register; [by apply wf_after_init|]. simpl. rewrite length_app. simpl. lia.
        -- eapply keyed_register; [by apply keyed_after_init|done|apply snoc_lookup|done].
        -- apply snoc_lookup.
        -- simpl. unfold cluster_of. simpl. rewrite Hn. apply lookup_insert_eq.
      * destruct (update_fn_new_fail _ _ _ name namespace s _ _ _ E1 E2 E3 E4 E5)
          as (e & s' & -> & Hm & Hw).
        cbn [snd]. destruct s' as [m' w']. simpl in *.
        apply (keyed_mem s); [done|by rewrite Hm|by rewrite Hm|by rewrite Hw].
  - destruct (ray_clusters (mem s) !! (name, namespace)) as [o|] eqn:E4.
    + pose proof (wf_registry s Hwf _ _ E4) as Hlt.
      apply lookup_lt_is_Some_2 in Hlt as [rc Hrc].
      rewrite (delete_fn_exec _ _ _ _ _ Hwf E4 Hrc). cbn [snd].
      apply (keyed_unregister _ _ o rc).
      * by eapply wf_after_clean_up.
      * by apply keyed_after_clean_up.
      * done.
      * done.
      * intros pid Hsub. apply (stop_world_dead s o rc pid Hwf Hrc Hsub).
    + by rewrite (delete_fn_absent _ _ _ E4).
  - by apply keyed_run_proc.
  - eapply keyed_worker_frame; [done | apply thread_step_frame].
Qed.

Lemma keyed_init : keyed init.
Proof. split; simpl; intros; by simplify_eq. Qed.

Lemma keyed_run evs : ∀ s,
  wf s → keyed s → admissible evs s = true → keyed (run evs s).
Proof.
  induction evs as [|e evs IH]; intros s Hwf Hk Hadm; [done|].
  simpl in Hadm. apply andb_true_iff in Hadm as [Hok Hadm].
  simpl. apply IH; [by apply wf_handle | by apply keyed_handle | done].
Qed.

End Claims.

(** * Further properties of the operator *)

Section More.
Context `{C : Collaborators}.

(** ** One live process for each cluster *)

(** When every create event comes for a cluster the registry does not
    hold, and the configurations name the cluster of their event, no two
    live supervised processes ever work for the same cluster, whatever
    create, update, delete, process and worker events are interleaved. *)
Theorem one_live_process_per_cluster evs :
  admissible evs init = true → one_process_each (run evs init).
Proof.
  intros Hadm. apply keyed_one.
  - apply wf_run, wf_init.
  - by apply keyed_run; [apply wf_init | apply keyed_init |].
Qed.

(** ** The status loop, called with its queue *)

Lemma report_writes item s :
  report item s =
    (Ok tt,
     if status_set item then
       {| mem := set_journal (journal (mem s) ++ [ESetStatus item]) (mem s);
          world := set_status_writes (status_writes (world s) ++ [item]) (world s) |}
     else s).
Proof.
  destruct item as [[n ns] ph]. unfold report, status_set. unfold_m.
  destruct (set_status n ns ph) as [[]|e]; reflexivity.
Qed.

Lemma loop_from_spec items : ∀ tail s,
  ∃ s1,
    status_handling_loop_from (map Some items ++ tail) s =
      status_handling_loop_from tail s1 ∧
    status_writes (world s1) = status_writes (world s) ++ filter (λ i, status_set i = true) items ∧
    cluster_status_q (mem s1) =
      match items with [] => cluster_status_q (mem s) | _ => tail end ∧
    ray_clusters (mem s1) = ray_clusters (mem s) ∧ heap (mem s1) = heap (mem s) ∧
    procs (world s1) = procs (world s) ∧ files (world s1) = files (world s).
Proof.
  induction items as [|item items IH]; intros tail s.
  - exists s. simpl. by rewrite app_nil_r.
  - simpl. unfold bind at 1. unfold modify at 1. cbn beta iota zeta.
    unfold bind at 1. rewrite report_writes.
    match goal with |- context [status_handling_loop_from _ ?s1] =>
      destruct (IH tail s1) as (s2 & E & Hw & Hq & Hr & Hh & Hp & Hf) end.
    exists s2. rewrite E. split; [done|].
    rewrite Hw, Hq, Hr, Hh, Hp, Hf. rewrite filter_cons.
    destruct (status_set item) eqn:Es.
    + rewrite decide_True by done. simpl. rewrite <- app_assoc.
      split_and!; try done. by destruct items.
    + rewrite decide_False by (by intros ?).
      split_and!; try done. by destruct items.
Qed.

(** X1. Called with the queue, [status_handling_loop] takes the items in
    order up to the first [None], writes the status of each one for which
    [set_status] returns, goes on after one for which it raises, and
    returns at the [None] with whatever came after it still in the queue;
    it touches neither registry, supervisors, processes nor files. *)
Theorem status_handling_loop_until_sentinel items rest s :
  cluster_status_q (mem s) = map Some items ++ None :: rest →
  ∃ s', status_handling_loop Cluster_status_q s = (Ok tt, s') ∧
        status_writes (world s') =
          status_writes (world s) ++ filter (λ i, status_set i = true) items ∧
        cluster_status_q (mem s') = rest ∧
        ray_clusters (mem s') = ray_clusters (mem s) ∧ heap (mem s') = heap (mem s) ∧
        procs (world s') = procs (world s) ∧ files (world s') = files (world s).
Proof.
  intros Hq. unfold status_handling_loop. rewrite Hq.
  destruct (loop_from_spec items (None :: rest) s) as (s1 & E & Hw & _ & Hr & Hh & Hp & Hf).
  rewrite E. simpl. unfold bind, modify, ret. simpl.
  eexists. split; [reflexivity|]. simpl. by rewrite Hw, Hr, Hh, Hp, Hf.
Qed.

(** X2. Without a [None] in the queue the loop writes what is there, in
    order, empties the queue and then waits in [queue.get()]: it does not
    return. *)
Theorem status_handling_loop_waits items s :
  cluster_status_q (mem s) = map Some items →
  ∃ s', status_handling_loop Cluster_status_q s = (Blocked, s') ∧
        status_writes (world s') =
          status_writes (world s) ++ filter (λ i, status_set i = true) items ∧
        (items ≠ [] → cluster_status_q (mem s') = []).
Proof.
  intros Hq. unfold status_handling_loop. rewrite Hq.
  destruct (loop_from_spec items [] s) as (s1 & E & Hw & Hq1 & _).
  rewrite app_nil_r in E. rewrite E. simpl. unfold block.
  exists s1. split; [done|]. split; [done|].
  intros Hne. rewrite Hq1. by destruct items.
Qed.

(** ** Failures of the create handler before it has done anything *)

(** X3. When the configuration cannot be built, when the password check
    refuses it, or when it lacks [cluster_name], [provider] or the
    provider's [namespace], the create handler raises that very exception
    and leaves everything as it was: no supervisor object, no registry
    entry, no status item, no process, no directory. *)
Theorem create_fn_raises_before_effects body name namespace s e :
  (cr_to_config body = Raises e ∨
   ∃ config, cr_to_config body = Returns config ∧
     (check_redis_password_not_specified config (name, namespace) = Raises e ∨
      check_redis_password_not_specified config (name, namespace) = Returns tt ∧
      (py_getitem config "cluster_name" = Raises e ∨
       ∃ nm, py_getitem config "cluster_name" = Returns nm ∧
         (py_getitem config "provider" = Raises e ∨
          ∃ provider, py_getitem config "provider" = Returns provider ∧
                      py_getitem provider "namespace" = Raises e)))) →
  create_fn body name namespace s = (Exc e, s).
Proof.
  intros [H|(config & H1 & [H2|(H2 & H3)])].
  - by apply create_fn_raises_config.
  - by eapply create_fn_raises_check.
  - unfold create_fn. run_call H1. run_call H2.
    unfold bind at 1. unfold RayCluster_init.
    destruct H3 as [H3|(nm & H3 & [H4|(prov & H4 & H5)])].
    + unfold bind at 1. unfold call at 1. by rewrite H3.
    + run_call H3. unfold bind at 1. unfold call at 1. by rewrite H4.
    + run_call H3. run_call H4. unfold bind at 1. unfold call at 1. by rewrite H5.
Qed.

(** ** The configuration file *)

(** X4. [delete_config] always returns: it removes the file at the
    configuration path when there is one, and when there is none the
    [OSError] of [os.remove] is caught and nothing changes; a second call
    finds no file. *)
Theorem delete_config_tolerates_missing self rc s :
  heap (mem s) !! self = Some rc →
  let s' := snd (delete_config self s) in
  delete_config self s = (Ok tt, s') ∧
  files (world s') = delete (rc_config_path rc) (files (world s)) ∧
  (files (world s) !! rc_config_path rc = None → s' = s) ∧
  delete_config self s' = (Ok tt, s').
Proof.
  intros Hrc. cbn zeta.
  assert (G : ∀ s0, heap (mem s0) !! self = Some rc →
            delete_config self s0 = (Ok tt, snd (delete_config self s0)) ∧
            files (world (snd (delete_config self s0)))
              = delete (rc_config_path rc) (files (world s0)) ∧
            heap (mem (snd (delete_config self s0))) = heap (mem s0) ∧
            (files (world s0) !! rc_config_path rc = None → snd (delete_config self s0) = s0)).
  { intros s0 H0. unfold delete_config, os_remove. unfold_m. rewrite H0. simpl.
    destruct (files (world s0) !! rc_config_path rc) eqn:E; simpl.
    - split_and!; done.
    - split_and!; try done. by rewrite delete_id. }
  destruct (G s Hrc) as (E1 & E2 & E3 & E4).
  split_and!; try done.
  assert (Hrc' : heap (mem (snd (delete_config self s))) !! self = Some rc) by by rewrite E3.
  destruct (G _ Hrc') as (F1 & _ & _ & F4).
  rewrite F1. f_equal. apply F4. rewrite E2. apply lookup_delete_eq.
Qed.

(** ** The log handler *)

Lemma remove_first_absent h l : h ∉ l → remove_first h l = l.
Proof.
  induction l as [|x l IH]; intros Hn; [done|]. simpl.
  apply not_elem_of_cons in Hn as [Hne Hn].
  destruct (Nat.eqb_spec x h) as [->|_]; [done|]. by rewrite IH.
Qed.

Lemma remove_first_snoc h l : h ∉ l → remove_first h (l ++ [h]) = l.
Proof.
  induction l as [|x l IH]; intros Hn; simpl.
  - by rewrite Nat.eqb_refl.
  - apply not_elem_of_cons in Hn as [Hne Hn].
    destruct (Nat.eqb_spec x h) as [->|_]; [done|]. by rewrite IH.
Qed.

Lemma remove_first_elem h x l : x ∈ remove_first h l → x ∈ l.
Proof.
  induction l as [|y l IH]; simpl; [done|].
  destruct (Nat.eqb y h).
  - intros H. by apply elem_of_cons; right.
  - intros H. apply elem_of_cons in H as [->|H].
    + apply elem_of_cons. by left.
    + apply elem_of_cons. right. by apply IH.
Qed.

(** Every handler on the root logger is the address of a supervisor object
    that has been built, and objects are never taken off the heap. *)
Lemma logger_bound_handle e s :
  wf s →
  (∀ h, h ∈ root_logger (mem s) → h < length (heap (mem s))) →
  ∀ h, h ∈ root_logger (mem (handle e s)) → h < length (heap (mem (handle e s))).
Proof.
  intros Hwf Hb.
  assert (Hnew : ∀ config nm ns h,
            h ∈ root_logger (mem (after_init config nm ns s)) →
            h < length (heap (mem (after_init config nm ns s)))).
  { intros config nm ns h. simpl. rewrite length_app. simpl.
    intros H. apply elem_of_app in H as [H|H].
    - apply Hb in H. lia.
    - apply list_elem_of_singleton in H. lia. }
  destruct e as [| |body name namespace|body old new name namespace
                 |name namespace|pid fault|]; cbn [handle].
  - destruct (start_background_worker_frame s) as (_ & -> & -> & _). done.
  - destruct (stop_background_worker_frame s) as (_ & -> & -> & _). done.
  - destruct (cr_to_config body) as [config|e] eqn:E1.
    2: { by rewrite (create_fn_raises_config _ _ _ _ _ E1). }
    destruct (check_redis_password_not_specified config (name, namespace)) as [[]|e] eqn:E2.
    2: { by rewrite (create_fn_raises_check _ _ _ _ _ _ E1 E2). }
    destruct (config_names config) as [[nm ns]|] eqn:E3.
    + rewrite (create_fn_exec _ _ _ _ _ _ _ Hwf E1 E2 E3). cbn [snd].
      unfold after_create. rewrite after_stop_idle by (intros pid; simpl; discriminate).
      intros h. specialize (Hnew config nm ns h). simpl in *.
      by rewrite length_alter.
    + destruct (create_fn_raises_init _ name namespace s _ E1 E2 E3) as (e & s' & -> & Hm & _).
      cbn [snd]. rewrite Hm. done.
  - destruct (cr_to_config body) as [config|e] eqn:E1.
    2: { by rewrite (update_fn_raises_config _ _ _ _ _ _ _ E1). }
    destruct (update_verdict old new) as [[sc rr]|e] eqn:E2.
    2: { by rewrite (update_fn_raises_verdict _ _ _ _ _ _ _ _ E1 E2). }
    destruct (sc || rr) eqn:E3.
    2: { apply orb_false_elim in E3 as [-> ->].
         by rewrite (update_fn_idle _ _ _ _ _ _ _ E1 E2). }
    destruct (ray_clusters (mem s) !! (name, namespace)) as [o|] eqn:E4.
    + pose proof (wf_registry s Hwf _ _ E4) as Hlt.
      apply lookup_lt_is_Some_2 in Hlt as [rc Hrc].
      rewrite (update_fn_known _ _ _ _ _ _ _ _ _ _ _ Hwf E1 E2 E3 E4 Hrc). cbn [snd].
      rewrite (after_update_eq _ _ _ _ _ _ _ Hwf Hrc).
      intros h. simpl. rewrite !length_alter. apply Hb.
    + destruct (config_names config) as [[nm ns]|] eqn:E5.
      * rewrite (update_fn_new _ _ _ _ _ _ _ _ _ _ _ Hwf E1 E2 E3 E4 E5). cbn [snd].
        match goal with
        | |- context [after_update ?o ?rc _ _ _ _ ?s0] =>
            assert (Hwf0 : wf s0)
              by (apply wf_register; [by apply wf_after_init|];
                  simpl; rewrite length_app; simpl; lia);
            assert (Hrc0 : heap (mem s0) !! o = Some rc) by apply snoc_lookup;
            rewrite (after_update_eq s0 o rc config rr name namespace Hwf0 Hrc0)
        end.
        intros h. specialize (Hnew config nm ns h). simpl in *.
        by rewrite !length_alter.
      * destruct (update_fn_new_fail _ _ _ name namespace s _ _ _ E1 E2 E3 E4 E5)
          as (e & s' & -> & Hm & _).
        cbn [snd]. rewrite Hm. done.
  - destruct (ray_clusters (mem s) !! (name, namespace)) as [o|] eqn:E4.
    + pose proof (wf_registry s Hwf _ _ E4) as Hlt.
      apply lookup_lt_is_Some_2 in Hlt as [rc Hrc].
      rewrite (delete_fn_exec _ _ _ _ _ Hwf E4 Hrc). simpl.
      intros h H. apply remove_first_elem in H. by apply Hb.
    + by rewrite (delete_fn_absent _ _ _ E4).
  - done.
  - destruct (thread_step_frame s) as (_ & -> & -> & _). done.
Qed.

Lemma logger_bound_run evs : ∀ s,
  wf s →
  (∀ h, h ∈ root_logger (mem s) → h < length (heap (mem s))) →
  ∀ h, h ∈ root_logger (mem (run evs s)) → h < length (heap (mem (run evs s))).
Proof.
  induction evs as [|e evs IH]; intros s Hwf Hb; [done|].
  simpl. apply IH; [by apply wf_handle | by apply logger_bound_handle].
Qed.

(** X6. In every state the operator reaches, [RayCluster(config)] installs
    one new log handler, after those already on the root logger, and
    [clean_up_logging] on the new object takes exactly that handler away,
    leaving the root logger's handlers as they were.  On any object whose
    handler is not installed, [clean_up_logging] changes nothing. *)
Theorem logging_round_trip evs config nm ns :
  let s := run evs init in
  config_names config = Some (nm, ns) →
  let o := length (heap (mem s)) in
  let s1 := snd (RayCluster_init config s) in
  RayCluster_init config s = (Ok o, s1) ∧
  (∃ rc, heap (mem s1) !! o = Some rc ∧
         (rc_handler rc ∉ root_logger (mem s)) ∧
         root_logger (mem s1) = root_logger (mem s) ++ [rc_handler rc]) ∧
  root_logger (mem (snd (clean_up_logging o s1))) = root_logger (mem s) ∧
  (∀ self rc s0, heap (mem s0) !! self = Some rc →
     rc_handler rc ∉ root_logger (mem s0) →
     root_logger (mem (snd (clean_up_logging self s0))) = root_logger (mem s0)).
Proof.
  cbn zeta. intros Hnames.
  assert (Hfresh : length (heap (mem (run evs init))) ∉ root_logger (mem (run evs init))).
  { intros H. apply (logger_bound_run evs init wf_init) in H; [lia|].
    simpl. intros h Hh. by apply elem_of_nil in Hh. }
  rewrite (RayCluster_init_ok _ _ _ (run evs init) Hnames). cbn [snd].
  split_and!.
  - done.
  - eexists. split; [apply snoc_lookup|]. simpl. by split.
  - unfold clean_up_logging. unfold_m. simpl. rewrite snoc_lookup. simpl.
    by apply remove_first_snoc.
  - intros self rc s0 Hrc Hn. unfold clean_up_logging. unfold_m. rewrite Hrc. simpl.
    by apply remove_first_absent.
Qed.

(** ** Stopping the supervised process *)

(** X7. In a state the operator can reach, [clean_up_subprocess] returns
    with the tracked process not alive, with the stop event cleared if it
    was clear before, and a second call changes nothing. *)
Theorem clean_up_subprocess_idempotent evs self rc :
  let s := run evs init in
  heap (mem s) !! self = Some rc →
  let s1 := snd (clean_up_subprocess self s) in
  clean_up_subprocess self s = (Ok tt, s1) ∧
  (∀ pid, rc_subprocess rc = Some pid → proc_alive (world s1) pid = false) ∧
  (events (world s) !! rc_monitor_stop_event rc = Some false →
   events (world s1) !! rc_monitor_stop_event rc = Some false) ∧
  clean_up_subprocess self s1 = (Ok tt, s1).
Proof.
  cbn zeta. intros Hrc.
  assert (Hwf : wf (run evs init)) by apply wf_run, wf_init.
  rewrite (clean_up_subprocess_exec _ _ _ Hwf Hrc). cbn [snd].
  split_and!; try done.
  - intros pid Hsub. by eapply after_stop_dead.
  - intros Hev. unfold after_stop, stop_world. simpl.
    destruct (rc_subprocess rc) as [pid|]; [|done].
    destruct (proc_alive _ pid); [|done]. simpl.
    apply list_lookup_insert_eq.
    match goal with |- context [run_proc ?a ?b ?c] =>
      destruct (run_proc_frame a b c) as (E1 & _) end.
    rewrite E1. simpl. rewrite length_insert. by eapply lookup_lt_Some.
  - assert (Hwf1 : wf (after_stop rc (run evs init))) by by eapply wf_after_stop.
    rewrite (clean_up_subprocess_exec _ _ rc Hwf1) by done.
    f_equal. apply after_stop_idle. intros pid Hsub. by eapply after_stop_dead.
Qed.

(** ** The delete handler in the states the operator reaches *)

(** X8. Whatever events came before, the delete handler returns: it does
    not raise and it is not left waiting in [join].  Afterwards the
    registry has no entry for the cluster, and a second delete event for
    it changes nothing. *)
Theorem delete_fn_returns evs name namespace :
  let s := run evs init in
  let s' := snd (delete_fn name namespace s) in
  delete_fn name namespace s = (Ok tt, s') ∧
  ray_clusters (mem s') !! (name, namespace) = None ∧
  delete_fn name namespace s' = (Ok tt, s').
Proof.
  cbn zeta.
  assert (Hwf : wf (run evs init)) by apply wf_run, wf_init.
  destruct (ray_clusters (mem (run evs init)) !! (name, namespace)) as [o|] eqn:E.
  - pose proof (wf_registry _ Hwf _ _ E) as Hlt.
    apply lookup_lt_is_Some_2 in Hlt as [rc Hrc].
    rewrite (delete_fn_exec _ _ _ _ _ Hwf E Hrc). cbn [snd].
    assert (Hnone : ray_clusters (mem (unregister (name, namespace)
                      (after_clean_up rc (run evs init)))) !! (name, namespace) = None)
      by apply lookup_delete_eq.
    split_and!; [done|done|]. by apply delete_fn_absent.
  - rewrite (delete_fn_absent _ _ _ E). cbn [snd].
    split_and!; [done|done|]. by apply delete_fn_absent.
Qed.

(** ** The registry *)

(** X9. The identifiers in the registry are those the events processed so
    far have registered - by a create event, or by an update event that
    acted, whose configuration was built, passed the check or needed none,
    and named the cluster - and that no later delete event has removed. *)
Theorem registry_domain evs :
  dom (ray_clusters (mem (run evs init))) = tracked evs.
Proof.
  rewrite (registry_run evs init wf_init). unfold tracked. simpl. by rewrite dom_empty_L.
Qed.

(** ** Supervisor objects and their processes *)

(** X10. Whatever the events, a supervisor object never has two live
    processes: every live process is the one its object tracks in
    [subprocess]. *)
Theorem one_live_process_per_supervisor evs pid1 pid2 p1 p2 :
  let s := run evs init in
  procs (world s) !! pid1 = Some p1 → procs (world s) !! pid2 = Some p2 →
  stage_alive (p_stage p1) = true → stage_alive (p_stage p2) = true →
  p_self p1 = p_self p2 →
  pid1 = pid2 ∧
  ∃ rc, heap (mem s) !! p_self p1 = Some rc ∧ rc_subprocess rc = Some pid1.
Proof.
  cbn zeta. intros Hp1 Hp2 Ha1 Ha2 Hself.
  assert (Hwf : wf (run evs init)) by apply wf_run, wf_init.
  destruct (wf_live _ Hwf _ _ Hp1 Ha1) as (rc1 & _ & H1 & Hs1 & _).
  destruct (wf_live _ Hwf _ _ Hp2 Ha2) as (rc2 & _ & H2 & Hs2 & _).
  rewrite <- Hself, H1 in H2. injection H2 as <-.
  split; [congruence|]. by exists rc1.
Qed.

(** ** The work of the supervised process *)

(** X11. A process that starts and whose provisioning raises writes its
    configuration, calls the provisioning command on it with
    [no_restart = not restart_ray], puts the [AutoscalingException] item
    of its cluster on the queue it holds and ends with the same exception;
    the monitor is not started and the object is not changed. *)
Theorem provisioning_failure_reported self rc restart_ray fault s e :
  heap (mem s) !! self = Some rc →
  create_or_update_cluster (rc_config_path rc) (Some (rc_config rc)) (negb restart_ray)
    = Raises e →
  let item := (rc_name rc, rc_namespace rc, STATUS_AUTOSCALING_EXCEPTION) in
  ∃ s', _create_or_update self restart_ray Started fault s = (Exc e, s') ∧
        journal (mem s') =
          journal (mem s) ++
            [EWrite (rc_config_path rc) (rc_config rc);
             EProvision (rc_config_path rc) (Some (rc_config rc)) (negb restart_ray);
             EPut (Some item)] ∧
        cluster_status_q (mem s') = cluster_status_q (mem s) ++ [Some item] ∧
        files (world s') = <[rc_config_path rc := rc_config rc]> (files (world s)) ∧
        heap (mem s') = heap (mem s).
Proof.
  intros Hrc Hfail. cbn zeta.
  unfold_child. unfold_m. simpl. rewrite Hrc. simpl. rewrite Hrc. simpl.
  rewrite lookup_insert_eq, Hfail. simpl. rewrite Hrc. simpl.
  eexists. split; [reflexivity|]. simpl. by rewrite <- !app_assoc.
Qed.

(** X12. When provisioning returns, [start_head] keeps the configuration
    it returned in the object and writes it over the one written before
    the call, so that the file the monitor is given holds the provisioned
    configuration. *)
Theorem start_head_writes_provisioned_config self rc restart_ray s config' :
  heap (mem s) !! self = Some rc →
  create_or_update_cluster (rc_config_path rc) (Some (rc_config rc)) (negb restart_ray)
    = Returns config' →
  ∃ s', start_head self restart_ray s = (Ok tt, s') ∧
        heap (mem s') !! self = Some (set_rc_config config' rc) ∧
        files (world s') = <[rc_config_path rc := config']> (files (world s)) ∧
        journal (mem s') =
          journal (mem s) ++
            [EWrite (rc_config_path rc) (rc_config rc);
             EProvision (rc_config_path rc) (Some (rc_config rc)) (negb restart_ray);
             EWrite (rc_config_path rc) config'].
Proof.
  intros Hrc Hok.
  unfold start_head, write_config. unfold_m. simpl. rewrite Hrc. simpl. rewrite Hrc. simpl.
  rewrite lookup_insert_eq, Hok. simpl. rewrite list_lookup_alter_eq, Hrc. simpl.
  eexists. split; [reflexivity|]. simpl.
  rewrite list_lookup_alter_eq, Hrc, insert_insert_eq. simpl.
  split_and!; try done. by rewrite <- !app_assoc.
Qed.

(** ** Create, then delete *)

Lemma run_procs_mem pid faults : ∀ s, mem (run (map (EvProc pid) faults) s) = mem s.
Proof.
  induction faults as [|f faults IH]; intros s; [done|]. simpl. by rewrite IH.
Qed.

(** X13. A cluster that is created in a state the operator has reached,
    under an identifier the registry does not hold, and deleted after its
    process has run any number of times, leaves the registry as it was
    before the create event, the process it launched not alive, and no
    file at its configuration path. *)
Theorem create_then_delete evs body name namespace config nm ns faults :
  let s := run evs init in
  cr_to_config body = Returns config →
  check_redis_password_not_specified config (name, namespace) = Returns tt →
  config_names config = Some (nm, ns) →
  ray_clusters (mem s) !! (name, namespace) = None →
  let pid := length (procs (world s)) in
  let s2 := run (map (EvProc pid) faults) (snd (create_fn body name namespace s)) in
  let s3 := snd (delete_fn name namespace s2) in
  delete_fn name namespace s2 = (Ok tt, s3) ∧
  ray_clusters (mem s3) = ray_clusters (mem s) ∧
  proc_alive (world s3) pid = false ∧
  files (world s3) !! config_path ns nm = None.
Proof.
  cbn zeta. intros H1 H2 H3 Hnone.
  assert (Hwf : wf (run evs init)) by apply wf_run, wf_init.
  rewrite (create_fn_exec _ _ _ _ _ _ _ Hwf H1 H2 H3). cbn [snd].
  destruct (after_create_facts config nm ns name namespace (run evs init))
    as (Hreg & _ & _ & Hrc & _).
  set (s1 := after_create config nm ns name namespace (run evs init)) in *.
  set (pid := length (procs (world (run evs init)))) in *.
  set (s2 := run (map (EvProc pid) faults) s1).
  assert (Hwf2 : wf s2) by (apply wf_run; by apply wf_after_create).
  assert (Hm : mem s2 = mem s1) by apply run_procs_mem.
  rewrite <- Hm in Hreg, Hrc.
  assert (HK : ray_clusters (mem s2) !! (name, namespace)
               = Some (length (heap (mem (run evs init)))))
    by (rewrite Hreg; apply lookup_insert_eq).
  rewrite (delete_fn_exec _ _ _ _ _ Hwf2 HK Hrc). cbn [snd].
  split_and!.
  - done.
  - simpl. rewrite Hreg. by apply delete_insert_id.
  - apply (stop_world_dead s2 _ _ pid Hwf2 Hrc). done.
  - simpl. apply lookup_delete_eq.
Qed.

(** ** Relaunching *)

(** X14. In a state the operator has reached, [create_or_update] returns
    with the process the object tracked before not alive and with one new
    process, started with the given [restart_ray], alive and tracked by
    the object in its place; the stop event is clear for the new process
    if it was clear before. *)
Theorem create_or_update_replaces_process evs self rc restart_ray :
  let s := run evs init in
  heap (mem s) !! self = Some rc →
  let s1 := snd (create_or_update self restart_ray s) in
  let pid := length (procs (world s)) in
  create_or_update self restart_ray s = (Ok tt, s1) ∧
  (∀ pid0, rc_subprocess rc = Some pid0 → pid0 ≠ pid ∧ proc_alive (world s1) pid0 = false) ∧
  heap (mem s1) !! self = Some (set_rc_subprocess (Some pid) rc) ∧
  length (procs (world s1)) = S pid ∧
  (∃ p, procs (world s1) !! pid = Some p ∧ p_self p = self ∧
        p_restart_ray p = restart_ray ∧ p_stage p = Started) ∧
  (events (world s) !! rc_monitor_stop_event rc = Some false →
   events (world s1) !! rc_monitor_stop_event rc = Some false).
Proof.
  cbn zeta. intros Hrc.
  assert (Hwf : wf (run evs init)) by apply wf_run, wf_init.
  unfold create_or_update. rewrite (do_in_subprocess_exec _ _ _ restart_ray Hwf Hrc). cbn [snd].
  destruct (stop_world_frame rc (world (run evs init))) as (_ & _ & _ & Hlen).
  split_and!.
  - done.
  - intros pid0 Hsub.
    destruct (wf_subprocess _ Hwf _ _ _ Hrc Hsub) as (p & Hp & _).
    apply lookup_lt_Some in Hp. split; [lia|].
    pose proof (stop_world_dead _ _ _ _ Hwf Hrc Hsub) as Hd.
    unfold proc_alive in *. unfold after_start. simpl.
    rewrite lookup_app_l by (rewrite Hlen; lia). done.
  - unfold after_start. simpl. by rewrite Hlen, list_lookup_alter_eq, Hrc.
  - unfold after_start. simpl. rewrite length_app, Hlen. simpl. lia.
  - eexists. split.
    + unfold after_start. simpl. rewrite <- Hlen. apply snoc_lookup.
    + by split_and!.
  - intros Hev. unfold after_start, after_stop, stop_world. simpl.
    destruct (rc_subprocess rc) as [pid0|]; [|done].
    destruct (proc_alive _ pid0); [|done]. simpl.
    apply list_lookup_insert_eq.
    match goal with |- context [run_proc ?a ?b ?c] =>
      destruct (run_proc_frame a b c) as (E1 & _) end.
    rewrite E1. simpl. rewrite length_insert. by eapply lookup_lt_Some.
Qed.

End More.

Lemma update_fn_inert_witness :
  snd (@update_fn sample (foo_body 2 (Some 1%Z) "ok") (foo_body 2 (Some 1%Z) "ok")
         (foo_body 2 (Some 1%Z) "ok") "foo" "ns1" init) = init.
Proof.
  apply (@update_fn_inert sample (foo_body 2 (Some 1%Z) "ok") (foo_body 2 (Some 1%Z) "ok")
           (foo_body 2 (Some 1%Z) "ok") "foo" "ns1" init 2 2 1 1);
    first [reflexivity | lia].
Defined.

Lemma update_fn_missing_generation_witness :
  ∃ e, @update_fn sample (foo_body 2 None "ok") (foo_body 1 None "ok")
         foo_body_no_generation "foo" "ns1" init = (Exc e, init) ∧
       (∀ config, @cr_to_config sample (foo_body 2 None "ok") = Returns config →
                  ∃ k, e = KeyError k).
Proof.
  apply (@update_fn_missing_generation sample (foo_body 2 None "ok") (foo_body 1 None "ok")
           foo_body_no_generation "foo" "ns1" init).
  - reflexivity.
  - right. reflexivity.
Defined.

(** The state after cluster [foo] has been created and its process has
    reached the monitor. *)
Lemma wf_foo_running :
  wf (@run sample [EvCreate (foo_body 1 None "ok") "foo" "ns1"; EvProc 0 None] init).
Proof. apply wf_run, wf_init. Qed.

Lemma update_fn_acts_witness :
  let s := @run sample [EvCreate (foo_body 1 None "ok") "foo" "ns1"; EvProc 0 None] init in
  ∃ o rc s0,
    @looked_up_or_created sample (VDict [("cluster_name", VStr "foo");
        ("provider", VDict [("namespace", VStr "ns1")]); ("spec", VStr "ok")])
      ("foo", "ns1") s o rc s0 ∧
    ∃ p, procs (world (snd (@update_fn sample (foo_body 1 (Some 1%Z) "ok")
             (foo_body 1 None "ok") (foo_body 1 (Some 1%Z) "ok") "foo" "ns1" s))) !! 1
         = Some p ∧ p_restart_ray p = true.
Proof.
  cbn zeta.
  assert (Hinc : (1 > 1 ∨ 1 > 0)%Z) by (right; lia).
  assert (Hnew : ray_clusters (mem (@run sample
             [EvCreate (foo_body 1 None "ok") "foo" "ns1"; EvProc 0 None] init))
            !! ("foo", "ns1") = None →
          is_Some (@config_names (VDict [("cluster_name", VStr "foo");
                      ("provider", VDict [("namespace", VStr "ns1")]); ("spec", VStr "ok")])))
    by (intros _; by eexists).
  destruct (@update_fn_acts sample (foo_body 1 (Some 1%Z) "ok") (foo_body 1 None "ok")
              (foo_body 1 (Some 1%Z) "ok") "foo" "ns1"
              (@run sample [EvCreate (foo_body 1 None "ok") "foo" "ns1"; EvProc 0 None] init)
              (VDict [("cluster_name", VStr "foo");
                      ("provider", VDict [("namespace", VStr "ns1")]); ("spec", VStr "ok")])
              1 1 0 1 wf_foo_running eq_refl eq_refl eq_refl eq_refl eq_refl Hinc Hnew)
    as (o & rc & s0 & Hsup & _ & _ & _ & _ & _ & _ & _ & _ & p & Hp & _ & Hr & _).
  exists o, rc, s0. split; [exact Hsup|]. exists p. split; [exact Hp | exact Hr].
Defined.

Lemma restart_decision_witness :
  ∃ r_new, @retries_field sample (foo_body 1 (Some 1%Z) "ok") = Some (VInt r_new) ∧
           (r_new > 0)%Z.
Proof.
  assert (Hnew : ray_clusters (mem (@run sample
             [EvCreate (foo_body 1 None "ok") "foo" "ns1"; EvProc 0 None] init))
            !! ("foo", "ns1") = None →
          is_Some (@config_names (VDict [("cluster_name", VStr "foo");
                      ("provider", VDict [("namespace", VStr "ns1")]); ("spec", VStr "ok")])))
    by (intros _; by eexists).
  assert (Hpos : (0 ≤ 0)%Z) by lia.
  pose proof (@restart_decision sample (foo_body 1 (Some 1%Z) "ok") (foo_body 1 None "ok")
           (foo_body 1 (Some 1%Z) "ok") "foo" "ns1"
           (@run sample [EvCreate (foo_body 1 None "ok") "foo" "ns1"; EvProc 0 None] init)
           (VDict [("cluster_name", VStr "foo");
                   ("provider", VDict [("namespace", VStr "ns1")]); ("spec", VStr "ok")])
           false true wf_foo_running eq_refl eq_refl Hnew) as (_ & _ & _ & H).
  apply (H 0%Z eq_refl Hpos). reflexivity.
Defined.

(** The bound on the old count is needed for the last part: with an old
    retry count of -1 and no retry field on the new body, 0 > -1 and the
    new process is started with [restart_ray = True]. *)
Lemma restart_without_retries_field :
  @retries_field sample (foo_body 1 None "ok") = None ∧
  @update_verdict sample (foo_body 1 (Some (-1)%Z) "ok") (foo_body 1 None "ok")
    = Returns (false, true) ∧
  map p_restart_ray
    (procs (world (snd (@update_fn sample (foo_body 1 None "ok")
                          (foo_body 1 (Some (-1)%Z) "ok") (foo_body 1 None "ok")
                          "foo" "ns1" init)))) = [true].
Proof. split_and!; reflexivity. Qed.

Lemma delete_fn_spec_witness :
  let s := @run sample [EvCreate (foo_body 1 None "ok") "foo" "ns1"; EvProc 0 None] init in
  ray_clusters (mem (snd (@delete_fn sample "foo" "ns1" s))) =
    delete ("foo", "ns1") (ray_clusters (mem s)) ∧
  proc_alive (world (snd (@delete_fn sample "foo" "ns1" s))) 0 = false ∧
  root_logger (mem s) = [0] ∧
  root_logger (mem (snd (@delete_fn sample "foo" "ns1" s))) = [].
Proof.
  cbn zeta.
  destruct (proj2 (proj2 (@delete_fn_spec sample "foo" "ns1"
             (@run sample [EvCreate (foo_body 1 None "ok") "foo" "ns1"; EvProc 0 None] init))
             wf_foo_running) 0 eq_refl)
    as (rc & Hrc & _ & _ & _ & Hdead & _ & Hlog & _ & Hreg & _).
  split; [exact Hreg|]. split.
  - apply Hdead. vm_compute in Hrc. injection Hrc as <-. reflexivity.
  - split; [reflexivity|]. rewrite Hlog.
    vm_compute in Hrc. injection Hrc as <-. reflexivity.
Defined.



Lemma create_or_update_writes_in_process_witness :
  files (world (snd (@create_or_update sample 0 true
      (@run sample [EvCreate (foo_body 1 None "ok") "foo" "ns1"; EvProc 0 None] init))))
  = files (@stop_world sample
      {| rc_config := VDict [("cluster_name", VStr "foo");
                             ("provider", VDict [("namespace", VStr "ns1")]);
                             ("spec", VStr "ok")];
         rc_name := "foo"; rc_namespace := "ns1";
         rc_config_path := "/ray/ns1/foo.yaml";
         rc_subprocess := Some 0; rc_subprocess_name := "foo,ns1";
         rc_monitor_stop_event := 0; rc_handler := 0 |}
      (world (@run sample [EvCreate (foo_body 1 None "ok") "foo" "ns1"; EvProc 0 None] init))).
Proof.
  apply (@create_or_update_writes_in_process sample 0 _ true None
           (@run sample [EvCreate (foo_body 1 None "ok") "foo" "ns1"; EvProc 0 None] init)
           wf_foo_running eq_refl).
Defined.

(** Cluster [foo] is created in the initial state: when the handler has
    returned the process is launched and alive, and nothing has been
    written at the configuration path. *)
Lemma launched_before_config_written :
  let s1 := @run sample [EvCreate (foo_body 1 None "ok") "foo" "ns1"] init in
  proc_alive (world s1) 0 = true ∧
  files (world s1) !! "/ray/ns1/foo.yaml" = None ∧
  journal (mem s1) =
    [EMakedirs "/ray/ns1"; EAddHandler 0; EPut (Some ("foo", "ns1", STATUS_UPDATING));
     EProcStart 0 "foo,ns1" false; EPut (Some ("foo", "ns1", STATUS_RUNNING))].
Proof. cbn zeta. split_and!; reflexivity. Qed.

(** Without any create event in the history, one update event whose
    generation went up leaves [foo] in the registry; and after a create
    event for [foo] that the password check refuses, with no delete event,
    the registry does not have it. *)
Lemma registry_differs_from_creates :
  (Forall (fun e => ∀ b n ns, e ≠ EvCreate b n ns)
     [EvUpdate (foo_body 2 None "ok") (foo_body 1 None "ok") (foo_body 2 None "ok")
        "foo" "ns1"] ∧
   is_Some (ray_clusters (mem (@run sample
     [EvUpdate (foo_body 2 None "ok") (foo_body 1 None "ok") (foo_body 2 None "ok")
        "foo" "ns1"] init)) !! ("foo", "ns1"))) ∧
  ray_clusters (mem (@run guarded [EvCreate (foo_body 1 None "redis_password") "foo" "ns1"]
                       init)) !! ("foo", "ns1")
    = None.
Proof.
  split_and!.
  - repeat constructor. done.
  - by eexists.
  - reflexivity.
Qed.



(** ** Instances of the further properties *)

Lemma status_handling_loop_until_sentinel_witness :
  ∃ s', @status_handling_loop sample Cluster_status_q
          (snd (q_put None (snd (q_put (Some ("foo", "ns1", STATUS_UPDATING)) init))))
        = (Ok tt, s') ∧
        cluster_status_q (mem s') = [].
Proof.
  destruct (@status_handling_loop_until_sentinel sample [("foo", "ns1", STATUS_UPDATING)] []
              (snd (q_put None (snd (q_put (Some ("foo", "ns1", STATUS_UPDATING)) init))))
              eq_refl) as (s' & E & _ & Hq & _).
  exists s'. split; [exact E | exact Hq].
Defined.

Lemma status_handling_loop_waits_witness :
  ∃ s', @status_handling_loop sample Cluster_status_q
          (snd (q_put (Some ("foo", "ns1", STATUS_UPDATING)) init))
        = (Blocked, s').
Proof.
  destruct (@status_handling_loop_waits sample [("foo", "ns1", STATUS_UPDATING)]
              (snd (q_put (Some ("foo", "ns1", STATUS_UPDATING)) init)) eq_refl)
    as (s' & E & _).
  exists s'. exact E.
Defined.

Lemma create_fn_raises_before_effects_witness :
  @create_fn sample (VDict []) "foo" "ns1" init = (Exc (KeyError "metadata"), init).
Proof.
  apply (@create_fn_raises_before_effects sample (VDict []) "foo" "ns1" init
           (KeyError "metadata")).
  left. reflexivity.
Defined.

Lemma delete_config_tolerates_missing_witness :
  files (world (snd (delete_config 0 foo_running))) =
    delete "/ray/ns1/foo.yaml" (files (world foo_running)).
Proof.
  apply (delete_config_tolerates_missing 0 (foo_cluster "ok" (Some 0)) foo_running eq_refl).
Defined.


Lemma logging_round_trip_witness :
  root_logger (mem (snd (clean_up_logging 1
     (snd (@RayCluster_init sample (foo_config "ok") foo_running)))))
  = root_logger (mem foo_running).
Proof.
  pose proof (@logging_round_trip sample
                [EvCreate (foo_body 1 None "ok") "foo" "ns1"; EvProc 0 None]
                (foo_config "ok") "foo" "ns1" eq_refl) as (_ & _ & H & _).
  exact H.
Defined.

Lemma clean_up_subprocess_idempotent_witness :
  proc_alive (world (snd (@clean_up_subprocess sample 0 foo_running))) 0 = false.
Proof.
  apply (@clean_up_subprocess_idempotent sample
           [EvCreate (foo_body 1 None "ok") "foo" "ns1"; EvProc 0 None]
           0 (foo_cluster "ok" (Some 0)) eq_refl).
  reflexivity.
Defined.

Lemma one_live_process_per_supervisor_witness :
  ∃ rc, heap (mem foo_running) !! 0 = Some rc ∧ rc_subprocess rc = Some 0.
Proof.
  pose (p := default {| p_name := "foo,ns1"; p_self := 0; p_restart_ray := false;
                        p_mem := mem init; p_stage := Exited None |}
                     (procs (world foo_running) !! 0)).
  assert (Hp : procs (world (@run sample
                [EvCreate (foo_body 1 None "ok") "foo" "ns1"; EvProc 0 None] init)) !! 0
               = Some p)
    by (vm_compute; reflexivity).
  assert (Ha : stage_alive (p_stage p) = true) by (vm_compute; reflexivity).
  pose proof (@one_live_process_per_supervisor sample
                [EvCreate (foo_body 1 None "ok") "foo" "ns1"; EvProc 0 None]
                0 0 p p Hp Hp Ha Ha eq_refl) as (_ & rc & Hrc & Hsub).
  assert (Hself : p_self p = 0) by (vm_compute; reflexivity).
  rewrite Hself in Hrc.
  exists rc. split; [exact Hrc | exact Hsub].
Defined.

Lemma provisioning_failure_reported_witness :
  ∃ s', @_create_or_update sample 0 false Started None
          (@run sample [EvCreate (foo_body 1 None "broken") "foo" "ns1"] init)
        = (Exc (ExternalError "provisioning"), s').
Proof.
  destruct (@provisioning_failure_reported sample 0 (foo_cluster "broken" (Some 0)) false None
              (@run sample [EvCreate (foo_body 1 None "broken") "foo" "ns1"] init)
              (ExternalError "provisioning") eq_refl eq_refl) as (s' & E & _).
  exists s'. exact E.
Defined.

Lemma start_head_writes_provisioned_config_witness :
  ∃ s', @start_head sample 0 false
          (@run sample [EvCreate (foo_body 1 None "ok") "foo" "ns1"] init) = (Ok tt, s') ∧
        files (world s') !! "/ray/ns1/foo.yaml" =
          Some (VDict [("cluster_name", VStr "foo");
                       ("provider", VDict [("namespace", VStr "ns1")]);
                       ("spec", VStr "ok"); ("head_ip", VStr "10.0.0.1")]).
Proof.
  destruct (@start_head_writes_provisioned_config sample 0 (foo_cluster "ok" (Some 0)) false
              (@run sample [EvCreate (foo_body 1 None "ok") "foo" "ns1"] init)
              (VDict [("cluster_name", VStr "foo");
                      ("provider", VDict [("namespace", VStr "ns1")]);
                      ("spec", VStr "ok"); ("head_ip", VStr "10.0.0.1")])
              eq_refl eq_refl) as (s' & E & _ & Hf & _).
  exists s'. split; [exact E|]. rewrite Hf. apply lookup_insert_eq.
Defined.

Lemma create_then_delete_witness :
  ray_clusters (mem (snd (@delete_fn sample "foo" "ns1"
     (@run sample (map (EvProc 0) [None])
        (snd (@create_fn sample (foo_body 1 None "ok") "foo" "ns1" init))))))
  = ray_clusters (mem init).
Proof.
  apply (@create_then_delete sample [] (foo_body 1 None "ok") "foo" "ns1"
           (foo_config "ok") "foo" "ns1" [None] eq_refl eq_refl eq_refl eq_refl).
Defined.

Lemma create_or_update_replaces_process_witness :
  heap (mem (snd (@create_or_update sample 0 true foo_running))) !! 0
    = Some (foo_cluster "ok" (Some 1)).
Proof.
  apply (@create_or_update_replaces_process sample
           [EvCreate (foo_body 1 None "ok") "foo" "ns1"; EvProc 0 None]
           0 (foo_cluster "ok" (Some 0)) true eq_refl).
Defined.

Lemma one_live_process_per_cluster_witness :
  one_process_each
    (@run sample [EvCreate (foo_body 1 None "ok") "foo" "ns1"; EvProc 0 None;
                  EvUpdate (foo_body 2 None "ok") (foo_body 1 None "ok")
                    (foo_body 2 None "ok") "foo" "ns1";
                  EvProc 1 None] init).
Proof.
  apply (@one_live_process_per_cluster sample
           [EvCreate (foo_body 1 None "ok") "foo" "ns1"; EvProc 0 None;
            EvUpdate (foo_body 2 None "ok") (foo_body 1 None "ok")
              (foo_body 2 None "ok") "foo" "ns1";
            EvProc 1 None]).
  vm_compute. reflexivity.
Defined.
